(** * ai-search: the Result type, the command and query buses, the Exa gateway

    A shallow embedding of the TypeScript classes and functions

      - Result                        (domain/result)
      - CommandBus, QueryBus          (application/command-bus, application/query-bus)
      - getApiKey, exaSearch          (infrastructure/exa-service)
      - SearchCommandHandler          (application/commands/search-command-handler)
      - GetSearchResultsQueryHandler  (application/queries/get-search-results-query-handler)
      - Container                     (infrastructure/container)
      - BaseCommand, SearchCommand    (domain/command, application/commands/search-command)
      - SearchPage: executeSearch, handleSubmit, confirmResearch
                                      (presentation/pages/SearchPage)
      - the preload script            (electron/preload)

    JavaScript effects are made explicit: a computation is a function from a
    state to an outcome and a new state; an outcome is a returned value, a
    thrown value, or a computation suspended for ever on a promise that never
    settles.  A promise is represented by the way it settles. *)

From Stdlib Require QArith_base.
From stdpp Require Import base strings gmap list pretty.

Local Open Scope string_scope.

(** ** JavaScript values that the sources build or throw *)

(** The double quote and the backslash, as one-character strings. *)
Definition dq : string := String (Ascii.ascii_of_nat 34) EmptyString.
Definition bs : string := String (Ascii.ascii_of_nat 92) EmptyString.

#[local] Set Warnings "-register-all".

Inductive JsVal : Type :=
| JsUndefined
| JsBool (b : bool)
| JsNumber (n : nat)
| JsString (s : string)
| JsObject (props : list (string * JsVal)).

(** What a [throw] statement or a rejected promise carries.  The sources only
    ever ask one question about a caught value: [error instanceof Error]. *)
Inductive Thrown : Type :=
| ErrorInstance (message : string)   (* new Error(message), TypeError, ... *)
| NonError (v : JsVal).              (* throw 'text', throw { message: 'm' }, ... *)

Definition instanceof_Error (e : Thrown) : bool :=
  match e with ErrorInstance _ => true | NonError _ => false end.

Fixpoint assoc (key : string) (props : list (string * JsVal)) : option JsVal :=
  match props with
  | [] => None
  | (k, v) :: rest => if String.eqb k key then Some v else assoc key rest
  end.

(** The [message] property of a thrown value, when it has one that is a string. *)
Definition message_of (e : Thrown) : option string :=
  match e with
  | ErrorInstance m => Some m
  | NonError (JsObject props) =>
      match assoc "message" props with Some (JsString m) => Some m | _ => None end
  | NonError _ => None
  end.

(** [error instanceof Error ? error.message : 'Unknown error'], the expression
    shared by every catch block of the sources. *)
Definition describe (error : Thrown) : string :=
  match error with
  | ErrorInstance message => message
  | NonError _ => "Unknown error"
  end.

(** [String.prototype.includes]: does [sub] occur in [s]? *)
Fixpoint includes (sub s : string) : bool :=
  String.prefix sub s ||
  match s with
  | EmptyString => false
  | String _ s' => includes sub s'
  end.

(** The same as a proposition: [s] is some text, then [sub], then some text. *)
Definition contains (sub s : string) : Prop :=
  exists pre post : string, s = pre +:+ sub +:+ post.

(** ** class Result *)

Module Result.

(** The three private fields; [None] stands for [undefined]. *)
Record t (T : Type) : Type := mk {
  _isSuccess : bool;
  _value : option T;
  _error : option string
}.
Arguments mk {T} _ _ _.
Arguments _isSuccess {T} _.
Arguments _value {T} _.
Arguments _error {T} _.

Section Getters.
Context {T : Type}.

Definition isSuccess (this : t T) : bool := _isSuccess this.

Definition isFailure (this : t T) : bool := negb (_isSuccess this).

(** A getter either throws or returns; the returned value may be [undefined]. *)
Definition value (this : t T) : Thrown + option T :=
  if negb (_isSuccess this)
  then inl (ErrorInstance "Cannot get value from failed result")
  else inr (_value this).

Definition error (this : t T) : Thrown + option string :=
  if _isSuccess this
  then inl (ErrorInstance "Cannot get error from successful result")
  else inr (_error this).
End Getters.

(** [Result.ok(value?)]: the argument is optional. *)
Definition ok {U : Type} (value : option U) : t U := mk true value None.

Definition fail {U : Type} (error : string) : t U := mk false None (Some error).

End Result.

(** ** Computations, promises, [async] and [await] *)

Inductive Out (A : Type) : Type :=
| Ret (a : A)          (* normal completion *)
| Throw (e : Thrown)   (* abrupt completion by an exception *)
| Block.               (* suspended on a promise that never settles *)
Arguments Ret {A} a.
Arguments Throw {A} e.
Arguments Block {A}.

Definition M (S A : Type) : Type := S -> Out A * S.

(** A promise, by the way it settles (or does not). *)
Inductive Promise (A : Type) : Type :=
| Fulfilled (a : A)
| Rejected (e : Thrown)
| Pending.
Arguments Fulfilled {A} a.
Arguments Rejected {A} e.
Arguments Pending {A}.

Section Monad.
Context {S : Type}.

Definition ret {A} (a : A) : M S A := fun s => (Ret a, s).

Definition throw {A} (e : Thrown) : M S A := fun s => (Throw e, s).

Definition bind {A B} (m : M S A) (k : A -> M S B) : M S B :=
  fun s =>
    match m s with
    | (Ret a, s') => k a s'
    | (Throw e, s') => (Throw e, s')
    | (Block, s') => (Block, s')
    end.

Definition gets {A} (f : S -> A) : M S A := fun s => (Ret (f s), s).

Definition modify (f : S -> S) : M S unit := fun s => (Ret tt, f s).

(** [try { body } catch (error) { handler error }] *)
Definition try_catch {A} (body : M S A) (handler : Thrown -> M S A) : M S A :=
  fun s =>
    match body s with
    | (Throw e, s') => handler e s'
    | r => r
    end.

(** [await p]: the value of a fulfilled promise; a rejection is rethrown at
    the [await]; on a promise that never settles the caller never resumes. *)
Definition await {A} (p : Promise A) : M S A :=
  fun s =>
    match p with
    | Fulfilled a => (Ret a, s)
    | Rejected e => (Throw e, s)
    | Pending => (Block, s)
    end.

(** The body of an [async] function never throws to its caller: the call
    returns a promise that settles the way the body completes. *)
Definition async {A} (body : M S A) : M S (Promise A) :=
  fun s =>
    match body s with
    | (Ret a, s') => (Ret (Fulfilled a), s')
    | (Throw e, s') => (Ret (Rejected e), s')
    | (Block, s') => (Ret Pending, s')
    end.
End Monad.

Notation "'let*' x ':=' m 'in' k" := (bind m (fun x => k))
  (at level 10, x pattern, m at level 100, k at level 200).

(** ** classes CommandBus and QueryBus

    The two classes differ in one word of their messages. *)

Inductive BusKind : Type := CommandKind | QueryKind.

Definition label (k : BusKind) : string :=
  match k with CommandKind => "command" | QueryKind => "query" end.

Module Bus.
Section Bus.
(** [W]: whatever a handler may read and write; [P]: payloads (commands
    or queries); [T]: the values carried by the results. *)
Context {W P T : Type}.

(** [ICommandHandler] / [IQueryHandler]: an object with one method.
    [hid] is the identity of the object.  [handle] may throw before it
    returns a promise, and the promise may settle either way. *)
Record Handler : Type := {
  hid : nat;
  handle : P -> M W (Promise (Result.t T))
}.

(** A bus object: its private field [handlers], and the log of the calls
    it made to [handle] methods (kept for the theorems; the sources have
    no such field). *)
Record t : Type := mk {
  handlers : gmap string Handler;
  invoked : list (nat * P)
}.

(** [new CommandBus()] *)
Definition new : t := mk ∅ [].

(** [handler.handle(payload)]: the call is logged, then the method runs
    on the handler's own world. *)
Definition call_handle (handler : Handler) (payload : P)
  : M (t * W) (Promise (Result.t T)) :=
  fun '(this, w) =>
    let this' := mk (handlers this) (invoked this ++ [(hid handler, payload)]) in
    let '(o, w') := handle handler payload w in
    (o, (this', w')).

(** [this.handlers.set(name, handler)] *)
Definition register (name : string) (handler : Handler) : M (t * W) unit :=
  modify (fun '(this, w) => (mk (<[name := handler]> (handlers this)) (invoked this), w)).

Definition execute (k : BusKind) (name : string) (payload : P)
  : M (t * W) (Promise (Result.t T)) :=
  async (
    let* handler := gets (fun '(this, _) => handlers this !! name) in
    match handler with
    | None =>
        ret (Result.fail ("No handler registered for " +:+ label k +:+ ": " +:+ name))
    | Some handler =>
        try_catch
          (let* p := call_handle handler payload in await p)
          (fun error =>
             ret (Result.fail ("Error executing " +:+ label k +:+ ": " +:+ describe error)))
    end).

(** For the statements: the bus object once it has logged one more call. *)
Definition logged (this : t) (handler : Handler) (payload : P) : t :=
  mk (handlers this) (invoked this ++ [(hid handler, payload)]).

(** For the statements: the promise [execute] returns, by the way the
    call of [handle] completes. *)
Definition settle (k : BusKind) (o : Out (Promise (Result.t T)))
  : Promise (Result.t T) :=
  match o with
  | Ret (Fulfilled r) => Fulfilled r
  | Ret (Rejected e) | Throw e =>
      Fulfilled (Result.fail ("Error executing " +:+ label k +:+ ": " +:+ describe e))
  | Ret Pending | Block => Pending
  end.
End Bus.
Arguments Handler : clear implicits.
Arguments t : clear implicits.
End Bus.

Module CommandBus.
Definition register {W P T} := @Bus.register W P T.
Definition execute {W P T} := @Bus.execute W P T CommandKind.
End CommandBus.

Module QueryBus.
Definition register {W P T} := @Bus.register W P T.
Definition execute {W P T} := @Bus.execute W P T QueryKind.
End QueryBus.

(** ** The buses again, with handlers that can reach the bus

    [register] and [execute] are public, and the container hands its buses
    to any code of the process ([Container.getInstance().commandBus]): a
    handler can call them from inside [handle].  The module [Bus] above
    keeps every handler on a world of its own; here that restriction is
    lifted.  A bus holds references to handler objects, and the [handle]
    method of a handler object runs on the bus and the world together, so
    it can register, execute, or do both. *)

Module OpenBus.
Section OpenBus.
Context {W P T : Type}.

(** A bus object: the map [handlers], from names to references, and the log
    of the calls of [handle] it made. *)
Record t : Type := mk {
  handlers : gmap string nat;
  invoked : list (nat * P)
}.

(** The [handle] method of every handler object, by reference. *)
Definition Methods : Type := nat -> P -> M (t * W) (Promise (Result.t T)).

Definition new : t := mk ∅ [].

(** [this.handlers.set(name, handler)] *)
Definition register (name : string) (handler : nat) : M (t * W) unit :=
  modify (fun '(this, w) => (mk (<[name := handler]> (handlers this)) (invoked this), w)).

Context (methods : Methods).

(** [handler.handle(payload)]: the call is logged, then the method runs, on
    the bus as it is at that moment and on the world. *)
Definition call_handle (handler : nat) (payload : P)
  : M (t * W) (Promise (Result.t T)) :=
  fun '(this, w) =>
    methods handler payload (mk (handlers this) (invoked this ++ [(handler, payload)]), w).

Definition execute (k : BusKind) (name : string) (payload : P)
  : M (t * W) (Promise (Result.t T)) :=
  async (
    let* handler := gets (fun '(this, _) => handlers this !! name) in
    match handler with
    | None =>
        ret (Result.fail ("No handler registered for " +:+ label k +:+ ": " +:+ name))
    | Some handler =>
        try_catch
          (let* p := call_handle handler payload in await p)
          (fun error =>
             ret (Result.fail ("Error executing " +:+ label k +:+ ": " +:+ describe error)))
    end).

(** For the statements: the bus once it has logged one more call. *)
Definition logged (this : t) (handler : nat) (payload : P) : t :=
  mk (handlers this) (invoked this ++ [(handler, payload)]).
End OpenBus.
Arguments t : clear implicits.
Arguments Methods : clear implicits.
End OpenBus.

(** A handler of [Bus], as a method that leaves the bus alone; and a bus of
    [Bus], as the bus of references to its handlers. *)
Definition confined {W P T} (h : Bus.Handler W P T)
  : P -> M (OpenBus.t P * W) (Promise (Result.t T)) :=
  fun payload '(this, w) =>
    let '(o, w') := Bus.handle h payload w in (o, (this, w')).

Definition references {W P T} (b : Bus.t W P T) : OpenBus.t P :=
  OpenBus.mk (Bus.hid <$> Bus.handlers b) (Bus.invoked b).

(** ** JSON.stringify, on the values the gateway serialises *)

Definition hex_digit (n : nat) : string :=
  match n with
  | 0 => "0" | 1 => "1" | 2 => "2" | 3 => "3" | 4 => "4" | 5 => "5" | 6 => "6" | 7 => "7"
  | 8 => "8" | 9 => "9" | 10 => "a" | 11 => "b" | 12 => "c" | 13 => "d" | 14 => "e"
  | _ => "f"
  end.

(** One character of QuoteJSONString.  Strings are UTF-8 text: bytes from 128
    on belong to characters that JSON leaves as they are. *)
Definition quote_char (c : Ascii.ascii) : string :=
  let n := Ascii.nat_of_ascii c in
  if Nat.eqb n 8 then bs +:+ "b"
  else if Nat.eqb n 9 then bs +:+ "t"
  else if Nat.eqb n 10 then bs +:+ "n"
  else if Nat.eqb n 12 then bs +:+ "f"
  else if Nat.eqb n 13 then bs +:+ "r"
  else if Nat.eqb n 34 then bs +:+ dq
  else if Nat.eqb n 92 then bs +:+ bs
  else if Nat.ltb n 32 then bs +:+ "u00" +:+ hex_digit (n / 16) +:+ hex_digit (n mod 16)
  else String c EmptyString.

Fixpoint quote_chars (s : string) : string :=
  match s with
  | EmptyString => EmptyString
  | String c s' => quote_char c +:+ quote_chars s'
  end.

Definition QuoteJSONString (s : string) : string := dq +:+ quote_chars s +:+ dq.

(** [JSON.stringify(v)]; [None] is [undefined].  A property whose value
    serialises to [undefined] is left out of its object. *)
Fixpoint JSON_stringify (v : JsVal) : option string :=
  match v with
  | JsUndefined => None
  | JsBool b => Some (if b then "true" else "false")
  | JsNumber n => Some (pretty n)
  | JsString s => Some (QuoteJSONString s)
  | JsObject props =>
      let fix members (ps : list (string * JsVal)) : list string :=
        match ps with
        | [] => []
        | (key, v) :: rest =>
            match JSON_stringify v with
            | None => members rest
            | Some text => (QuoteJSONString key +:+ ":" +:+ text) :: members rest
            end
        end in
      Some ("{" +:+ String.concat "," (members props) +:+ "}")
  end.

(** ** domain/exa-types *)

Inductive SearchMode : Type := search | research.

Definition SearchMode_text (mode : SearchMode) : string :=
  match mode with search => "search" | research => "research" end.

Definition SearchMode_eqb (a b : SearchMode) : bool :=
  match a, b with
  | search, search | research, research => true
  | _, _ => false
  end.

Module ExaTypes.
Record ExaSearchResult : Type := {
  id : string;
  title : string;
  url : string;
  publishedDate : option string;
  author : option string;
  text : option string;
  highlights : option (list string);
  summary : option string;
  score : option QArith_base.Q;
  image : option string
}.

Record ExaSearchResponse : Type := {
  requestId : string;
  results : list ExaSearchResult;
  searchType : option string;
  costDollars : option QArith_base.Q   (* { total: number } *)
}.
End ExaTypes.
Abbreviation ExaSearchResponse := ExaTypes.ExaSearchResponse.

(** ** The world of the gateway: configuration, network, console *)

Abbreviation Env := (gmap string string).

(** [import.meta.env] and [process.env]; [None] when the object itself is
    missing ([env?.] and [typeof process !== 'undefined']). *)
Record Config : Type := {
  import_meta_env : option Env;
  process_env : option Env
}.

Record Request : Type := {
  req_url : string;
  req_method : string;
  req_headers : list (string * string);
  req_body : option string
}.

(** A [Response]: [ok] is derived from [status]; [text()] and [json()] are
    promises that the runtime settles. *)
Record Response : Type := {
  res_status : nat;
  res_text : Promise string;
  res_json : Promise ExaSearchResponse
}.

Definition res_ok (res : Response) : bool :=
  Nat.leb 200 (res_status res) && Nat.leb (res_status res) 299.

Record World : Type := {
  config : Config;
  (** how the network settles the promise of a [fetch], given the requests
      sent before it *)
  network : list Request -> Request -> Promise Response;
  sent : list Request;
  console : list string
}.

Definition fetch (request : Request) : M World (Promise Response) :=
  fun w =>
    (Ret (network w (sent w) request),
     {| config := config w; network := network w;
        sent := sent w ++ [request]; console := console w |}).

Definition console_log (line : string) : M World unit :=
  modify (fun w =>
    {| config := config w; network := network w;
       sent := sent w; console := console w ++ [line] |}).

(** ** infrastructure/exa-service *)

Definition EXA_BASE_URL : string := "https://api.exa.ai".

(** [a ?? b] *)
Definition nullish_or {A} (a b : option A) : option A :=
  match a with Some x => Some x | None => b end.

(** The expression bound to [key] in [getApiKey]. *)
Definition read_key (cfg : Config) : option string :=
  nullish_or
    (match import_meta_env cfg with
     | Some env => env !! "VITE_EXA_API_KEY"
     | None => None
     end)
    (match process_env cfg with
     | Some env => env !! "VITE_EXA_API_KEY"
     | None => None
     end).

(** [!key]: [undefined] and the empty string are falsy. *)
Definition not_key (key : option string) : bool :=
  match key with
  | None => true
  | Some EmptyString => true
  | Some _ => false
  end.

Definition getApiKey : M World string :=
  let* key := gets (fun w => read_key (config w)) in
  if not_key key then
    throw (ErrorInstance
             "Exa API key not configured. Set VITE_EXA_API_KEY in your .env file.")
  else
    ret (default EmptyString key).

(** The object literal [body] of [exaSearch]. *)
Definition exaSearch_body (query : string) (mode : SearchMode) : JsVal :=
  let isResearch := SearchMode_eqb mode research in
  JsObject [
    ("query", JsString query);
    ("type", JsString (if isResearch then "deep" else "auto"));
    ("numResults", JsNumber (if isResearch then 20 else 10));
    ("contents", JsObject [
       ("text", JsBool true);
       ("highlights", if isResearch then JsBool true else JsUndefined);
       ("summary", if isResearch then JsBool true else JsUndefined)])
  ].

(** The two arguments of the call of [fetch] in [exaSearch]. *)
Definition exaSearch_request (apiKey : string) (body : JsVal) : Request :=
  {| req_url := EXA_BASE_URL +:+ "/search";
     req_method := "POST";
     req_headers := [("Content-Type", "application/json"); ("x-api-key", apiKey)];
     req_body := JSON_stringify body |}.

Definition exaSearch (query : string) (mode : SearchMode)
  : M World (Promise ExaSearchResponse) :=
  async (
    let* apiKey := getApiKey in
    let body := exaSearch_body query mode in
    let* p := fetch (exaSearch_request apiKey body) in
    let* res := await p in
    if negb (res_ok res) then
      let* errorText := await (res_text res) in
      throw (ErrorInstance
               ("Exa API error (" +:+ pretty (res_status res) +:+ "): " +:+ errorText))
    else
      await (res_json res)).

(** ** classes SearchCommand and GetSearchResultsQuery *)

Record SearchCommand : Type := {
  timestamp : nat;        (* BaseCommand: new Date() *)
  commandId : string;     (* BaseCommand: crypto.randomUUID() *)
  query : string;
  mode : SearchMode
}.

Record GetSearchResultsQuery : Type := {
  q_timestamp : nat;
  queryId : string;
  searchId : string
}.

(** ** class SearchCommandHandler *)

Definition SearchCommandHandler_handle (command : SearchCommand)
  : M World (Promise (Result.t ExaSearchResponse)) :=
  async (
    try_catch
      (let* _ := console_log ("Executing Exa " +:+ SearchMode_text (mode command)
                              +:+ " for: " +:+ dq +:+ query command +:+ dq) in
       let* p := exaSearch (query command) (mode command) in
       let* response := await p in
       ret (Result.ok (Some response)))
      (fun error => ret (Result.fail ("Search failed: " +:+ describe error)))).

(** [new SearchCommandHandler()], the object numbered [n]. *)
Definition SearchCommandHandler (n : nat) : Bus.Handler World SearchCommand ExaSearchResponse :=
  {| Bus.hid := n; Bus.handle := SearchCommandHandler_handle |}.

(** ** class GetSearchResultsQueryHandler *)

Record SampleResult : Type := {
  sample_id : nat;
  sample_title : string;
  sample_description : string
}.

Definition GetSearchResultsQueryHandler_handle (query : GetSearchResultsQuery)
  : M World (Promise (Result.t (list SampleResult))) :=
  async (
    try_catch
      (let* _ := console_log ("Fetching results for search: " +:+ searchId query) in
       let results := [
         {| sample_id := 1; sample_title := "Result 1"; sample_description := "Sample result 1" |};
         {| sample_id := 2; sample_title := "Result 2"; sample_description := "Sample result 2" |}
       ] in
       ret (Result.ok (Some results)))
      (fun error => ret (Result.fail ("Failed to fetch results: " +:+ describe error)))).

Definition GetSearchResultsQueryHandler (n : nat)
  : Bus.Handler World GetSearchResultsQuery (list SampleResult) :=
  {| Bus.hid := n; Bus.handle := GetSearchResultsQueryHandler_handle |}.

(** ** class Container *)

Module Container.

(** The two private fields of a Container: its bus objects. *)
Record t : Type := mk {
  _commandBus : Bus.t World SearchCommand ExaSearchResponse;
  _queryBus : Bus.t World GetSearchResultsQuery (list SampleResult)
}.

(** A method call on [this._commandBus] (resp. [this._queryBus]): the bus
    object is updated in place, inside the container. *)
Definition on_commandBus {A}
    (m : M (Bus.t World SearchCommand ExaSearchResponse * World) A) : M (t * World) A :=
  fun '(this, w) =>
    let '(o, (b, w')) := m (_commandBus this, w) in
    (o, (mk b (_queryBus this), w')).

Definition on_queryBus {A}
    (m : M (Bus.t World GetSearchResultsQuery (list SampleResult) * World) A)
  : M (t * World) A :=
  fun '(this, w) =>
    let '(o, (b, w')) := m (_queryBus this, w) in
    (o, (mk (_commandBus this) b, w')).

(** The handler objects are created here; they get the numbers 1 and 2. *)
Definition registerHandlers : M (t * World) unit :=
  let* _ := on_commandBus (CommandBus.register "SearchCommand" (SearchCommandHandler 1)) in
  on_queryBus (QueryBus.register "GetSearchResultsQuery" (GetSearchResultsQueryHandler 2)).

(** [new Container()] *)
Definition constructor : M World t :=
  fun w =>
    match registerHandlers (mk Bus.new Bus.new, w) with
    | (Ret _, (this, w')) => (Ret this, w')
    | (Throw e, (_, w')) => (Throw e, w')
    | (Block, (_, w')) => (Block, w')
    end.

(** A running process: the static field [Container.instance] ([None] while
    it is undefined) and the world around it. *)
Record Process : Type := {
  instance : option t;
  world : World
}.

Definition getInstance : M Process t :=
  fun p =>
    match instance p with
    | Some this => (Ret this, p)
    | None =>
        match constructor (world p) with
        | (Ret this, w') => (Ret this, {| instance := Some this; world := w' |})
        | (Throw e, w') => (Throw e, {| instance := None; world := w' |})
        | (Block, w') => (Block, {| instance := None; world := w' |})
        end
    end.

(** [Container.getInstance().m(...)]: a method of the one instance. *)
Definition on_instance {A} (m : M (t * World) A) : M Process A :=
  let* this := getInstance in
  fun p =>
    let '(o, (this', w')) := m (this, world p) in
    (o, {| instance := Some this'; world := w' |}).

End Container.

(** The call made by the search page (presentation/pages/SearchPage):
    [Container.getInstance().commandBus.execute('SearchCommand', command)]. *)
Definition executeSearch (command : SearchCommand)
  : M Container.Process (Promise (Result.t ExaSearchResponse)) :=
  Container.on_instance
    (Container.on_commandBus (CommandBus.execute "SearchCommand" command)).

(** For the statements: the error thrown by [getApiKey]. *)
Definition KeyError : Thrown :=
  ErrorInstance "Exa API key not configured. Set VITE_EXA_API_KEY in your .env file.".

(** For the statements: the world once one more request has been sent. *)
Definition with_sent (w : World) (request : Request) : World :=
  {| config := config w; network := network w;
     sent := sent w ++ [request]; console := console w |}.

(** For the statements: the world once one more line has been printed. *)
Definition with_line (w : World) (line : string) : World :=
  {| config := config w; network := network w;
     sent := sent w; console := console w ++ [line] |}.

(** For the statements: the promise [exaSearch] returns, by the way the
    promise of its [fetch] settles. *)
Definition answer (p : Promise Response) : Promise ExaSearchResponse :=
  match p with
  | Fulfilled res =>
      if res_ok res then res_json res
      else match res_text res with
           | Fulfilled errorText =>
               Rejected (ErrorInstance ("Exa API error (" +:+ pretty (res_status res)
                                        +:+ "): " +:+ errorText))
           | Rejected e => Rejected e
           | Pending => Pending
           end
  | Rejected e => Rejected e
  | Pending => Pending
  end.

(** For the statements: a text between double quotes. *)
Definition quoted (s : string) : string := dq +:+ s +:+ dq.

(** For the statements: the line [SearchCommandHandler.handle] prints. *)
Definition search_line (command : SearchCommand) : string :=
  "Executing Exa " +:+ SearchMode_text (mode command)
  +:+ " for: " +:+ dq +:+ query command +:+ dq.

(** For the statements: the command bus of the instance, if there is one,
    has the search handler under its name, as [registerHandlers] leaves it. *)
Definition wired (p : Container.Process) : Prop :=
  match Container.instance p with
  | None => True
  | Some this =>
      Bus.handlers (Container._commandBus this) !! "SearchCommand"
      = Some (SearchCommandHandler 1)
  end.

(** A session of the search page: one search after the other, each awaited. *)
Fixpoint executeSearches (commands : list SearchCommand)
  : M Container.Process (list (Promise (Result.t ExaSearchResponse))) :=
  match commands with
  | [] => ret []
  | command :: rest =>
      let* r := executeSearch command in
      let* rs := executeSearches rest in
      ret (r :: rs)
  end.

(** ** A client of a bus: any sequence of calls of its two methods *)

Inductive Call (W P T : Type) : Type :=
| CallRegister (name : string) (handler : Bus.Handler W P T)
| CallExecute (name : string) (payload : P).
Arguments CallRegister {W P T} name handler.
Arguments CallExecute {W P T} name payload.

(** The calls one after the other, each promise awaited or dropped. *)
Fixpoint run_calls {W P T} (k : BusKind) (calls : list (Call W P T))
  : M (Bus.t W P T * W) unit :=
  match calls with
  | [] => ret tt
  | CallRegister name handler :: rest =>
      let* _ := Bus.register name handler in run_calls k rest
  | CallExecute name payload :: rest =>
      let* _ := Bus.execute k name payload in run_calls k rest
  end.

(** ** The runtime around a page: the clock and the source of UUIDs *)

(** [clock n] is what the [n]th reading of the clock gives, [uuids n] what
    the [n]th call of [crypto.randomUUID()] gives. *)
Record Runtime : Type := {
  clock : nat -> nat;
  clock_reads : nat;
  uuids : nat -> string;
  uuids_drawn : nat
}.

(** [new Date()] *)
Definition Date_new : M Runtime nat :=
  fun r =>
    (Ret (clock r (clock_reads r)),
     {| clock := clock r; clock_reads := S (clock_reads r);
        uuids := uuids r; uuids_drawn := uuids_drawn r |}).

Definition crypto_randomUUID : M Runtime string :=
  fun r =>
    (Ret (uuids r (uuids_drawn r)),
     {| clock := clock r; clock_reads := clock_reads r;
        uuids := uuids r; uuids_drawn := S (uuids_drawn r) |}).

(** ** classes BaseCommand and SearchCommand: the constructors *)

(** The two fields that [BaseCommand]'s constructor sets. *)
Definition BaseCommand_constructor : M Runtime (nat * string) :=
  let* timestamp := Date_new in
  let* commandId := crypto_randomUUID in
  ret (timestamp, commandId).

(** [new SearchCommand(query, mode)]; the second argument may be left out. *)
Definition SearchCommand_constructor (query : string) (mode : option SearchMode)
  : M Runtime SearchCommand :=
  let mode := match mode with Some m => m | None => search end in
  let* base := BaseCommand_constructor in
  ret {| timestamp := fst base; commandId := snd base; query := query; mode := mode |}.

(** For the statements: the runtime once a command has been constructed. *)
Definition constructed (r : Runtime) : Runtime :=
  {| clock := clock r; clock_reads := S (clock_reads r);
     uuids := uuids r; uuids_drawn := S (uuids_drawn r) |}.

(** ** String.prototype.trim, on UTF-8 text *)

Definition is_empty (s : string) : bool :=
  match s with EmptyString => true | String _ _ => false end.

(** When [s] starts with a WhiteSpace or LineTerminator code point, the rest
    of [s] after it.  These are U+0009..U+000D and U+0020 (one byte),
    U+00A0 (two bytes), U+1680, U+2000..U+200A, U+2028, U+2029, U+202F,
    U+205F, U+3000 and U+FEFF (three bytes). *)
Definition strip_space (s : string) : option string :=
  match s with
  | EmptyString => None
  | String a r1 =>
      let x := Ascii.nat_of_ascii a in
      if Nat.leb 9 x && Nat.leb x 13 || Nat.eqb x 32 then Some r1
      else
        match r1 with
        | EmptyString => None
        | String b r2 =>
            let y := Ascii.nat_of_ascii b in
            if Nat.eqb x 194 && Nat.eqb y 160 then Some r2
            else
              match r2 with
              | EmptyString => None
              | String c r3 =>
                  let z := Ascii.nat_of_ascii c in
                  if Nat.eqb x 225 && Nat.eqb y 154 && Nat.eqb z 128
                     || Nat.eqb x 226 && Nat.eqb y 128
                        && (Nat.leb 128 z && Nat.leb z 138
                            || Nat.eqb z 168 || Nat.eqb z 169 || Nat.eqb z 175)
                     || Nat.eqb x 226 && Nat.eqb y 129 && Nat.eqb z 159
                     || Nat.eqb x 227 && Nat.eqb y 128 && Nat.eqb z 128
                     || Nat.eqb x 239 && Nat.eqb y 187 && Nat.eqb z 191
                  then Some r3
                  else None
              end
        end
  end.

Fixpoint trimStart_from (fuel : nat) (s : string) : string :=
  match fuel with
  | 0 => s
  | S fuel' =>
      match strip_space s with
      | Some rest => trimStart_from fuel' rest
      | None => s
      end
  end.

Definition trimStart (s : string) : string := trimStart_from (String.length s) s.

(** The text up to its last character that is no white space. *)
Fixpoint trimEnd (s : string) : string :=
  match s with
  | EmptyString => EmptyString
  | String c s' => if is_empty (trimStart s) then EmptyString else String c (trimEnd s')
  end.

Definition trim (s : string) : string := trimEnd (trimStart s).

(** ** function SearchPage (presentation/pages/SearchPage): its handlers *)

(** A getter called from a computation: it returns or throws. *)
Definition getter {S A} (r : Thrown + A) : M S A :=
  match r with
  | inl e => throw e
  | inr a => ret a
  end.

(** [try { body } finally { after }] *)
Definition try_finally {S A} (body : M S A) (after : M S unit) : M S A :=
  fun s =>
    match body s with
    | (Ret a, s') => (let* _ := after in ret a) s'
    | (Throw e, s') => (let* _ := after in throw e) s'
    | (Block, s') => (Block, s')
    end.

Module SearchPage.

Record SearchInfo : Type := {
  info_searchType : option string;
  info_cost : option QArith_base.Q;
  info_count : nat
}.

(** The seven [useState] cells; [None] stands for [null]. *)
Record State : Type := {
  s_query : string;
  s_mode : SearchMode;
  s_results : list ExaTypes.ExaSearchResult;
  s_loading : bool;
  s_error : option string;
  s_showResearchWarning : bool;
  s_searchInfo : option SearchInfo
}.

(** The page, the process it runs in, and the runtime. *)
Record Browser : Type := {
  page : State;
  process : Container.Process;
  runtime : Runtime
}.

Definition on_page (f : State -> State) : M Browser unit :=
  modify (fun b => {| page := f (page b); process := process b; runtime := runtime b |}).

Definition on_process {A} (m : M Container.Process A) : M Browser A :=
  fun b =>
    let '(o, p) := m (process b) in
    (o, {| page := page b; process := p; runtime := runtime b |}).

Definition on_runtime {A} (m : M Runtime A) : M Browser A :=
  fun b =>
    let '(o, r) := m (runtime b) in
    (o, {| page := page b; process := process b; runtime := r |}).

Definition setResults (v : list ExaTypes.ExaSearchResult) : M Browser unit :=
  on_page (fun s =>
    {| s_query := s_query s; s_mode := s_mode s; s_results := v;
       s_loading := s_loading s; s_error := s_error s;
       s_showResearchWarning := s_showResearchWarning s;
       s_searchInfo := s_searchInfo s |}).

Definition setLoading (v : bool) : M Browser unit :=
  on_page (fun s =>
    {| s_query := s_query s; s_mode := s_mode s; s_results := s_results s;
       s_loading := v; s_error := s_error s;
       s_showResearchWarning := s_showResearchWarning s;
       s_searchInfo := s_searchInfo s |}).

Definition setError (v : option string) : M Browser unit :=
  on_page (fun s =>
    {| s_query := s_query s; s_mode := s_mode s; s_results := s_results s;
       s_loading := s_loading s; s_error := v;
       s_showResearchWarning := s_showResearchWarning s;
       s_searchInfo := s_searchInfo s |}).

Definition setShowResearchWarning (v : bool) : M Browser unit :=
  on_page (fun s =>
    {| s_query := s_query s; s_mode := s_mode s; s_results := s_results s;
       s_loading := s_loading s; s_error := s_error s;
       s_showResearchWarning := v;
       s_searchInfo := s_searchInfo s |}).

Definition setSearchInfo (v : option SearchInfo) : M Browser unit :=
  on_page (fun s =>
    {| s_query := s_query s; s_mode := s_mode s; s_results := s_results s;
       s_loading := s_loading s; s_error := s_error s;
       s_showResearchWarning := s_showResearchWarning s;
       s_searchInfo := v |}).

(** [data.results] and the like on [data === undefined], as V8 words it. *)
Definition undefined_data : Thrown :=
  ErrorInstance "Cannot read properties of undefined (reading 'results')".

(** The function [executeSearch] of the page.  The call
    [container.commandBus.execute('SearchCommand', command)] in it is the
    computation [executeSearch command] defined above. *)
Definition executeSearch (searchMode : SearchMode) : M Browser (Promise unit) :=
  async (
    let* query := gets (fun b => s_query (page b)) in
    if is_empty (trim query) then
      setError (Some "Please enter a search query")
    else
      let* _ := setLoading true in
      let* _ := setError None in
      let* _ := setResults [] in
      let* _ := setSearchInfo None in
      try_finally
        (try_catch
           (let* command := on_runtime (SearchCommand_constructor query (Some searchMode)) in
            let* p := on_process (executeSearch command) in
            let* commandResult := await p in
            if Result.isFailure commandResult then
              let* message := getter (Result.error commandResult) in
              setError message
            else
              let* data := getter (Result.value commandResult) in
              match data with
              | None => throw undefined_data
              | Some data =>
                  let* _ := setResults (ExaTypes.results data) in
                  setSearchInfo (Some
                    {| info_searchType := ExaTypes.searchType data;
                       info_cost := ExaTypes.costDollars data;
                       info_count := length (ExaTypes.results data) |})
              end)
           (fun err =>
              setError (Some match err with
                             | ErrorInstance message => message
                             | NonError _ => "An unexpected error occurred"
                             end)))
        (setLoading false)).

(** For the statements: the page once a search has started. *)
Definition started (s : State) : State :=
  {| s_query := s_query s; s_mode := s_mode s; s_results := [];
     s_loading := true; s_error := None;
     s_showResearchWarning := s_showResearchWarning s;
     s_searchInfo := None |}.

(** For the statements: the page that started a search and shows no more
    spinner, with the given error, results and summary. *)
Definition finished (s : State) (error : option string)
    (results : list ExaTypes.ExaSearchResult) (info : option SearchInfo) : State :=
  {| s_query := s_query s; s_mode := s_mode s; s_results := results;
     s_loading := false; s_error := error;
     s_showResearchWarning := s_showResearchWarning s;
     s_searchInfo := info |}.

(** For the statements: the command that [executeSearch] constructs. *)
Definition command_of (b : Browser) (searchMode : SearchMode) : SearchCommand :=
  {| timestamp := clock (runtime b) (clock_reads (runtime b));
     commandId := uuids (runtime b) (uuids_drawn (runtime b));
     query := s_query (page b);
     mode := searchMode |}.

(** The promise of [executeSearch] is dropped by both callers. *)
Definition handleSubmit : M Browser unit :=
  let* mode := gets (fun b => s_mode (page b)) in
  if SearchMode_eqb mode research then
    setShowResearchWarning true
  else
    let* _ := executeSearch search in ret tt.

Definition confirmResearch : M Browser unit :=
  let* _ := setShowResearchWarning false in
  let* _ := executeSearch research in
  ret tt.

End SearchPage.

(** ** The preload script (electron/preload): the bridge to the main process *)

Module Preload.
Section Preload.
(** [D]: the data that crosses the bridge; [F]: the functions of the page
    that listen to events. *)
Context {D F : Type}.

(** [ipcRenderer]: the messages invoked so far, how the main process settles
    an invocation, and the listeners.  A listener is a channel, the identity
    of the function object registered, and the page function it wraps. *)
Record Ipc : Type := {
  invocations : list (string * D);
  main : list (string * D) -> string -> D -> Promise D;
  listeners : list (string * nat * F);
  created : nat
}.

Definition ipcRenderer_invoke (channel : string) (data : D) : M Ipc (Promise D) :=
  fun i =>
    (Ret (main i (invocations i) channel data),
     {| invocations := invocations i ++ [(channel, data)]; main := main i;
        listeners := listeners i; created := created i |}).

(** A function expression: a new function object, with the next identity. *)
Definition new_function : M Ipc nat :=
  fun i =>
    (Ret (created i),
     {| invocations := invocations i; main := main i;
        listeners := listeners i; created := S (created i) |}).

Definition ipcRenderer_on (channel : string) (subscription : nat) (func : F) : M Ipc unit :=
  modify (fun i =>
    {| invocations := invocations i; main := main i;
       listeners := listeners i ++ [(channel, subscription, func)];
       created := created i |}).

(** [removeListener] takes away the instance added last, if there is one. *)
Fixpoint remove_last (channel : string) (subscription : nat)
    (l : list (string * nat * F)) : list (string * nat * F) * bool :=
  match l with
  | [] => ([], false)
  | (c, n, f) :: rest =>
      let '(rest', found) := remove_last channel subscription rest in
      if found then ((c, n, f) :: rest', true)
      else if String.eqb c channel && Nat.eqb n subscription then (rest, true)
      else ((c, n, f) :: rest, false)
  end.

Definition ipcRenderer_removeListener (channel : string) (subscription : nat) : M Ipc unit :=
  modify (fun i =>
    {| invocations := invocations i; main := main i;
       listeners := fst (remove_last channel subscription (listeners i));
       created := created i |}).

(** [validChannels.includes(channel)] *)
Definition Array_includes (validChannels : list string) (channel : string) : bool :=
  existsb (String.eqb channel) validChannels.

(** The functions return [undefined], here [None], on a channel they do not
    know. *)
Definition sendCommand (channel : string) (data : D) : M Ipc (option (Promise D)) :=
  let validChannels := ["execute-command"] in
  if Array_includes validChannels channel then
    let* p := ipcRenderer_invoke channel data in ret (Some p)
  else ret None.

Definition sendQuery (channel : string) (data : D) : M Ipc (option (Promise D)) :=
  let validChannels := ["execute-query"] in
  if Array_includes validChannels channel then
    let* p := ipcRenderer_invoke channel data in ret (Some p)
  else ret None.

(** [on] returns the function that takes the listener away again. *)
Definition on (channel : string) (func : F) : M Ipc (option (M Ipc unit)) :=
  let validChannels := ["event-update"] in
  if Array_includes validChannels channel then
    let* subscription := new_function in
    let* _ := ipcRenderer_on channel subscription func in
    ret (Some (ipcRenderer_removeListener channel subscription))
  else ret None.
End Preload.
Arguments Ipc : clear implicits.
End Preload.

(** ** Concrete handlers and worlds, on which the theorems are run *)

Module Samples.

(** A handler that throws an Error before it returns a promise. *)
Definition throwing : Bus.Handler unit nat nat :=
  {| Bus.hid := 1; Bus.handle := fun _ => throw (ErrorInstance "boom") |}.

(** A handler whose promise is rejected with a plain object that has a
    [message] property but is no instance of Error. *)
Definition disk_full : Thrown :=
  NonError (JsObject [("message", JsString "disk full")]).

Definition rejecting : Bus.Handler unit nat nat :=
  {| Bus.hid := 2; Bus.handle := fun _ => ret (Rejected disk_full) |}.

(** Handlers that answer with a success and with a failure. *)
Definition doubling : Bus.Handler unit nat nat :=
  {| Bus.hid := 3;
     Bus.handle := fun n => async (ret (Result.ok (Some (2 * n)))) |}.

Definition refusing : Bus.Handler unit nat nat :=
  {| Bus.hid := 4;
     Bus.handle := fun _ => async (ret (Result.fail "not today")) |}.

Definition bus (name : string) (H : Bus.Handler unit nat nat) : Bus.t unit nat nat :=
  Bus.mk (<[name := H]> ∅) [].

(** Worlds: with a key and an endpoint that answers 500; without a key. *)
Definition rate_limited : Response :=
  {| res_status := 500;
     res_text := Fulfilled "rate limited";
     res_json := Rejected (ErrorInstance "Unexpected token r in JSON at position 0") |}.

Definition with_key : World :=
  {| config := {| import_meta_env := Some {[ "VITE_EXA_API_KEY" := "test-key" ]};
                  process_env := None |};
     network := fun _ _ => Fulfilled rate_limited;
     sent := [];
     console := [] |}.

Definition without_key : World :=
  {| config := {| import_meta_env := Some ∅; process_env := Some ∅ |};
     network := fun _ _ => Fulfilled rate_limited;
     sent := [];
     console := [] |}.

Definition rust_vs_go (mode : SearchMode) : SearchCommand :=
  {| timestamp := 0; commandId := "c-1"; query := "rust vs go"; mode := mode |}.

End Samples.

(** ** More worlds, pages and bridges on which the theorems are run *)

Module Cases.

Definition one_result : ExaTypes.ExaSearchResult :=
  {| ExaTypes.id := "r-1"; ExaTypes.title := "Rust and Go compared";
     ExaTypes.url := "https://example.org/rust-go";
     ExaTypes.publishedDate := None; ExaTypes.author := None;
     ExaTypes.text := Some "Both are compiled languages.";
     ExaTypes.highlights := None; ExaTypes.summary := None;
     ExaTypes.score := None; ExaTypes.image := None |}.

Definition one_response : ExaSearchResponse :=
  {| ExaTypes.requestId := "req-1"; ExaTypes.results := [one_result];
     ExaTypes.searchType := Some "auto"; ExaTypes.costDollars := None |}.

(** Answers of the endpoint: a good one, and a 200 whose body is no JSON. *)
Definition good : Response :=
  {| res_status := 200;
     res_text := Pending;
     res_json := Fulfilled one_response |}.

Definition garbled : Response :=
  {| res_status := 200;
     res_text := Fulfilled "<html>";
     res_json := Rejected (ErrorInstance "Unexpected token < in JSON at position 0") |}.

(** A world whose key comes from [process.env] alone. *)
Definition world (answer : Promise Response) : World :=
  {| config := {| import_meta_env := None;
                  process_env := Some {[ "VITE_EXA_API_KEY" := "pk-1" ]} |};
     network := fun _ _ => answer;
     sent := [];
     console := [] |}.

(** A world in which [import.meta.env] has the entry, empty, and
    [process.env] has a key. *)
Definition shadowed : World :=
  {| config := {| import_meta_env := Some {[ "VITE_EXA_API_KEY" := EmptyString ]};
                  process_env := Some {[ "VITE_EXA_API_KEY" := "pk-1" ]} |};
     network := fun _ _ => Fulfilled good;
     sent := [];
     console := [] |}.

Definition command : SearchCommand :=
  {| timestamp := 0; commandId := "c-1"; query := "rust vs go"; mode := search |}.

Definition lookup : GetSearchResultsQuery :=
  {| q_timestamp := 0; queryId := "q-1"; searchId := "s-1" |}.

Definition fresh (w : World) : Container.Process :=
  {| Container.instance := None; Container.world := w |}.

Definition zero_runtime : Runtime :=
  {| clock := fun n => n; clock_reads := 0; uuids := fun _ => "u"; uuids_drawn := 0 |}.

(** A page with a query typed in, nothing else yet. *)
Definition typed (query : string) (mode : SearchMode) (w : World) : SearchPage.Browser :=
  {| SearchPage.page :=
       {| SearchPage.s_query := query; SearchPage.s_mode := mode;
          SearchPage.s_results := []; SearchPage.s_loading := false;
          SearchPage.s_error := None; SearchPage.s_showResearchWarning := false;
          SearchPage.s_searchInfo := None |};
     SearchPage.process := fresh w;
     SearchPage.runtime := zero_runtime |}.

(** Two spaces, a tab and a no-break space (U+00A0, two bytes). *)
Definition blank : string :=
  "  " +:+ String (Ascii.ascii_of_nat 9)
            (String (Ascii.ascii_of_nat 194) (String (Ascii.ascii_of_nat 160) EmptyString)).

(** A handler whose promise never settles. *)
Definition silent : Bus.Handler unit nat nat :=
  {| Bus.hid := 5; Bus.handle := fun _ => ret Pending |}.

Definition bridge : Preload.Ipc nat nat :=
  {| Preload.invocations := []; Preload.main := fun _ _ n => Fulfilled (S n);
     Preload.listeners := []; Preload.created := 0 |}.

End Cases.

(** ** Handlers that call the bus back *)

Module Reentrant.

(** The handler object 1 registers the handler object 2 under 'Other' while
    it handles, then answers with its payload; every other handler object
    answers with the double of its payload and leaves the bus alone. *)
Definition methods : OpenBus.Methods unit nat nat :=
  fun handler payload =>
    if Nat.eqb handler 1 then
      let* _ := OpenBus.register "Other" 2 in
      ret (Fulfilled (Result.ok (Some payload)))
    else
      ret (Fulfilled (Result.ok (Some (2 * payload)))).

Definition bus : OpenBus.t nat := OpenBus.mk {[ "Ask" := 1 ]} [].

End Reentrant.

(** * Theorems *)

(** ** Strings: what it means for a message to contain a text *)

Lemma append_cons (c : Ascii.ascii) (s t : string) :
  String c s +:+ t = String c (s +:+ t).
Proof. reflexivity. Qed.

Lemma append_nil_l (s : string) : EmptyString +:+ s = s.
Proof. reflexivity. Qed.

Lemma append_nil_r (s : string) : s +:+ EmptyString = s.
Proof.
  induction s as [|c s IH]; [reflexivity |].
  rewrite append_cons. now f_equal.
Qed.

Lemma append_assoc (a b c : string) : (a +:+ b) +:+ c = a +:+ b +:+ c.
Proof.
  induction a as [|x a IH]; [reflexivity |].
  rewrite !append_cons. now f_equal.
Qed.

Lemma contains_refl (s : string) : contains s s.
Proof.
  exists EmptyString, EmptyString.
  now rewrite append_nil_l, append_nil_r.
Qed.

Lemma contains_after (p sub s : string) : contains sub s -> contains sub (p +:+ s).
Proof.
  intros (pre & post & ->). exists (p +:+ pre), post.
  now rewrite append_assoc.
Qed.

Lemma contains_before (p sub s : string) : contains sub s -> contains sub (s +:+ p).
Proof.
  intros (pre & post & ->). exists pre, (post +:+ p).
  now rewrite !append_assoc.
Qed.

Lemma prefix_true_iff (sub s : string) :
  String.prefix sub s = true <-> exists post, s = sub +:+ post.
Proof.
  revert s. induction sub as [|a sub IH]; intros s.
  - destruct s; split; intros _; [now exists EmptyString | reflexivity
                                  | now eexists | reflexivity].
  - destruct s as [|b s].
    + split; [discriminate | intros (post & Hp); discriminate].
    + cbn [String.prefix]. destruct (Ascii.ascii_dec a b) as [->|Hne].
      * rewrite IH. split; intros (post & Hp); exists post.
        -- rewrite append_cons. now f_equal.
        -- rewrite append_cons in Hp. congruence.
      * split; [discriminate |].
        intros (post & Hp). rewrite append_cons in Hp. congruence.
Qed.

(** [includes] decides [contains]. *)
Lemma includes_true_iff (sub s : string) : includes sub s = true <-> contains sub s.
Proof.
  induction s as [|c s IH]; cbn [includes].
  - rewrite orb_false_r, prefix_true_iff. split.
    + intros (post & Hp). exists EmptyString, post. exact Hp.
    + intros (pre & post & Hp). destruct pre; [eauto | discriminate].
  - rewrite orb_true_iff, prefix_true_iff, IH. split.
    + intros [(post & Hp) | (pre & post & Hp)].
      * exists EmptyString, post. exact Hp.
      * exists (String c pre), post. rewrite append_cons. now f_equal.
    + intros (pre & post & Hp). destruct pre as [|x pre].
      * left. eauto.
      * right. exists pre, post. rewrite append_cons in Hp. congruence.
Qed.

(** ** Result *)

Section ResultTheory.
Context {T : Type}.

(** C4. Exactly one of [isSuccess] and [isFailure] holds of a Result: a
    Result made by [Result.fail] is a failure and its [value] getter throws
    an Error; a Result made by [Result.ok] is a success and its [error]
    getter throws an Error; this for every message and every value. *)
Theorem Result_exclusivity :
  (forall r : Result.t T, xorb (Result.isSuccess r) (Result.isFailure r) = true) /\
  (forall message : string,
      Result.isSuccess (@Result.fail T message) = false /\
      Result.isFailure (@Result.fail T message) = true /\
      Result.value (@Result.fail T message)
        = inl (ErrorInstance "Cannot get value from failed result")) /\
  (forall value : option T,
      Result.isSuccess (Result.ok value) = true /\
      Result.isFailure (Result.ok value) = false /\
      Result.error (Result.ok value)
        = inl (ErrorInstance "Cannot get error from successful result")).
Proof.
  split; [|split].
  - intros [[] v e]; reflexivity.
  - intros message. repeat split.
  - intros value. repeat split.
Qed.

(** C9. [Result.ok()] without an argument is a success whose [value] getter
    returns [undefined] and does not throw. *)
Theorem Result_ok_undefined :
  Result.isSuccess (@Result.ok T None) = true /\
  Result.isFailure (@Result.ok T None) = false /\
  Result.value (@Result.ok T None) = inr None.
Proof. repeat split. Qed.

(** The getters on the side that is populated. *)
Lemma Result_value_ok (v : option T) : Result.value (Result.ok v) = inr v.
Proof. reflexivity. Qed.

Lemma Result_error_fail (message : string) :
  Result.error (@Result.fail T message) = inr (Some message).
Proof. reflexivity. Qed.
End ResultTheory.

(** ** The buses *)

Section BusTheory.
Context {W P T : Type}.
Implicit Types (b : Bus.t W P T) (w : W) (H : Bus.Handler W P T).
Implicit Types (name : string) (x : P) (k : BusKind).

Lemma register_eq name H b w :
  Bus.register name H (b, w)
  = (Ret tt, (Bus.mk (<[name := H]> (Bus.handlers b)) (Bus.invoked b), w)).
Proof. reflexivity. Qed.

Lemma execute_unregistered k name x b w :
  Bus.handlers b !! name = None ->
  Bus.execute k name x (b, w)
  = (Ret (Fulfilled (Result.fail
            ("No handler registered for " +:+ label k +:+ ": " +:+ name))), (b, w)).
Proof.
  intros Hnone. unfold Bus.execute, async, bind, gets. now rewrite Hnone.
Qed.

(** With a handler under the name, [execute] calls it once, on the payload,
    and settles by the way the call completes. *)
Lemma execute_registered k name x b w H :
  Bus.handlers b !! name = Some H ->
  Bus.execute k name x (b, w)
  = (Ret (Bus.settle k (fst (Bus.handle H x w))),
     (Bus.logged b H x, snd (Bus.handle H x w))).
Proof.
  intros Hsome.
  unfold Bus.execute, async, bind, gets, try_catch, Bus.call_handle, await, ret.
  rewrite Hsome. unfold Bus.logged.
  destruct (Bus.handle H x w) as [[[r | e |] | e |] w']; reflexivity.
Qed.

(** [execute] always returns a promise: it never throws to its caller and
    never blocks it; and the promise is never a rejected one. *)
Lemma execute_never_throws k name x b w :
  exists p s', Bus.execute k name x (b, w) = (Ret p, s') /\
               forall e, p <> Rejected e.
Proof.
  destruct (Bus.handlers b !! name) as [H|] eqn:Hl.
  - rewrite (execute_registered k name x b w H Hl). eexists _, _. split; [reflexivity |].
    intros e. destruct (fst (Bus.handle H x w)) as [[r | e' |] | e' |]; discriminate.
  - rewrite (execute_unregistered k name x b w Hl). eexists _, _. split; [reflexivity |].
    discriminate.
Qed.

Lemma execute_handlers k name x b w :
  Bus.handlers (fst (snd (Bus.execute k name x (b, w)))) = Bus.handlers b.
Proof.
  destruct (Bus.handlers b !! name) as [H|] eqn:Hl.
  - now rewrite (execute_registered k name x b w H Hl).
  - now rewrite (execute_unregistered k name x b w Hl).
Qed.

(** C2. With no handler registered under [name], whatever is registered
    under other names, [execute] resolves to the failure Result with the
    message 'No handler registered for <kind>: <name>', which contains the
    name; no handler is called: the call log, the registry and the world
    are as they were. *)
Theorem execute_unknown_name k name x b w :
  Bus.handlers b !! name = None ->
  let message := "No handler registered for " +:+ label k +:+ ": " +:+ name in
  Bus.execute k name x (b, w) = (Ret (Fulfilled (Result.fail message)), (b, w)) /\
  contains name message /\
  Bus.invoked (fst (snd (Bus.execute k name x (b, w)))) = Bus.invoked b.
Proof.
  intros Hnone message. rewrite (execute_unregistered k name x b w Hnone).
  repeat split. subst message.
  do 3 apply contains_after. apply contains_refl.
Qed.

(** C3. After [register(name, H)], when [H.handle(x)] returns a promise
    fulfilled with the Result [r], [execute(name, x)] returns a promise
    fulfilled with that same [r], success or failure alike. *)
Theorem execute_passthrough k name x b w H r w' :
  Bus.handle H x w = (Ret (Fulfilled r), w') ->
  (let* _ := Bus.register name H in Bus.execute k name x) (b, w)
  = (Ret (Fulfilled r),
     (Bus.mk (<[name := H]> (Bus.handlers b)) (Bus.invoked b ++ [(Bus.hid H, x)]), w')).
Proof.
  intros Hh. unfold bind. rewrite register_eq.
  rewrite (execute_registered k name x _ w H) by apply lookup_insert_eq.
  now rewrite Hh.
Qed.

(** C1, as the code has it. When the handler registered under [name] throws
    [e] from [handle(x)], or returns a promise rejected with [e],
    [execute(name, x)] neither throws nor rejects: it returns a promise
    fulfilled with a failure Result.  Its message is 'Error executing
    <kind>: ' followed by the message of [e] when [e] is an instance of
    Error, and by 'Unknown error' for every other thrown value. *)
Theorem execute_contains_exceptions k name x b w H e w' :
  Bus.handlers b !! name = Some H ->
  Bus.handle H x w = (Throw e, w') \/ Bus.handle H x w = (Ret (Rejected e), w') ->
  exists message,
    Bus.execute k name x (b, w)
    = (Ret (Fulfilled (Result.fail message)), (Bus.logged b H x, w')) /\
    (forall m, e = ErrorInstance m ->
       message = "Error executing " +:+ label k +:+ ": " +:+ m /\ contains m message) /\
    (forall v, e = NonError v ->
       message = "Error executing " +:+ label k +:+ ": Unknown error").
Proof.
  intros Hsome Hh.
  exists ("Error executing " +:+ label k +:+ ": " +:+ describe e).
  rewrite (execute_registered k name x b w H Hsome).
  split; [destruct Hh as [-> | ->]; reflexivity |].
  split.
  - intros m ->. split; [reflexivity |].
    do 3 apply contains_after. apply contains_refl.
  - now intros v ->.
Qed.

(** C8. After [register(name, H1)] and then [register(name, H2)] the
    registry holds [H2] under [name]; from then on, as long as the registry
    is not written again, [execute(name, x)] makes one call, to [H2], and
    behaves as if [H1] had never been registered. *)
Theorem register_overwrite k name H1 H2 b w :
  let after := snd ((let* _ := Bus.register name H1 in Bus.register name H2) (b, w)) in
  let only2 := snd (Bus.register name H2 (b, w)) in
  Bus.handlers (fst after) !! name = Some H2 /\
  Bus.handlers (fst after) = Bus.handlers (fst only2) /\
  forall b' w' x,
    Bus.handlers b' = Bus.handlers (fst after) ->
    Bus.execute k name x (b', w')
    = (Ret (Bus.settle k (fst (Bus.handle H2 x w'))),
       (Bus.mk (Bus.handlers b') (Bus.invoked b' ++ [(Bus.hid H2, x)]),
        snd (Bus.handle H2 x w'))).
Proof.
  cbn. split; [apply lookup_insert_eq |].
  split; [apply insert_insert_eq |].
  intros b' w' x Hb'.
  apply execute_registered. rewrite Hb'. apply lookup_insert_eq.
Qed.
End BusTheory.

(** ** The buses, with handlers that can reach the bus *)

Section OpenBusTheory.
Context {W P T : Type}.
Implicit Types (b : OpenBus.t P) (w : W) (methods : OpenBus.Methods W P T).
Implicit Types (name : string) (x : P) (k : BusKind).

Lemma open_register_eq name (handler : nat) b w :
  OpenBus.register name handler (b, w)
  = (Ret tt, (OpenBus.mk (<[name := handler]> (OpenBus.handlers b)) (OpenBus.invoked b), w)).
Proof. reflexivity. Qed.

Lemma open_execute_unregistered methods k name x b w :
  OpenBus.handlers b !! name = None ->
  OpenBus.execute methods k name x (b, w)
  = (Ret (Fulfilled (Result.fail
            ("No handler registered for " +:+ label k +:+ ": " +:+ name))), (b, w)).
Proof.
  intros Hnone. unfold OpenBus.execute, async, bind, gets. now rewrite Hnone.
Qed.

(** With a handler under the name, [execute] logs the call and runs the
    method; the state after [execute] is the state the method leaves. *)
Lemma open_execute_registered methods k name x b w (handler : nat) :
  OpenBus.handlers b !! name = Some handler ->
  OpenBus.execute methods k name x (b, w)
  = (Ret (Bus.settle k (fst (methods handler x (OpenBus.logged b handler x, w)))),
     snd (methods handler x (OpenBus.logged b handler x, w))).
Proof.
  intros Hsome.
  unfold OpenBus.execute, async, bind, gets, try_catch, OpenBus.call_handle, await, ret.
  rewrite Hsome. unfold OpenBus.logged.
  destruct (methods handler x _) as [[[r | e |] | e |] s']; reflexivity.
Qed.

(** When every handler of a bus leaves the bus alone, the two models agree:
    [Bus.execute] is [OpenBus.execute] on the bus of references. *)
Lemma execute_agrees methods k name x (b : Bus.t W P T) w :
  (forall n h, Bus.handlers b !! n = Some h ->
     forall y s, methods (Bus.hid h) y s = confined h y s) ->
  OpenBus.execute methods k name x (references b, w)
  = (fst (Bus.execute k name x (b, w)),
     (references (fst (snd (Bus.execute k name x (b, w)))),
      snd (snd (Bus.execute k name x (b, w))))).
Proof.
  intros Hm. destruct (Bus.handlers b !! name) as [h|] eqn:Hl.
  - rewrite (execute_registered k name x b w h Hl).
    rewrite (open_execute_registered methods k name x (references b) w (Bus.hid h)).
    + rewrite (Hm name h Hl). unfold confined. cbn.
      destruct (Bus.handle h x w) as [o w']. reflexivity.
    + cbn. now rewrite lookup_fmap, Hl.
  - rewrite (execute_unregistered k name x b w Hl).
    rewrite open_execute_unregistered; [reflexivity |].
    cbn. now rewrite lookup_fmap, Hl.
Qed.

(** C10, as the code has it. [register(name, H)] changes the binding of
    [name] only: every other name keeps its handler, or its absence.
    [execute] itself does not write the registry: under a name that is not
    registered the registry after [execute] is the registry before it; and
    under a registered name it is so whenever the handler that is called
    does not itself change the registry while it handles the payload. *)
Theorem registry_frame_reentrant methods k name (handler : nat) b w :
  (forall name', name' <> name ->
     OpenBus.handlers (fst (snd (OpenBus.register name handler (b, w)))) !! name'
     = OpenBus.handlers b !! name') /\
  (forall name' x,
     OpenBus.handlers b !! name' = None ->
     OpenBus.handlers (fst (snd (OpenBus.execute methods k name' x (b, w))))
     = OpenBus.handlers b) /\
  (forall name' x h,
     OpenBus.handlers b !! name' = Some h ->
     OpenBus.handlers (fst (snd (methods h x (OpenBus.logged b h x, w))))
     = OpenBus.handlers b ->
     OpenBus.handlers (fst (snd (OpenBus.execute methods k name' x (b, w))))
     = OpenBus.handlers b).
Proof.
  split; [| split].
  - intros name' Hne. rewrite open_register_eq. cbn. now apply lookup_insert_ne.
  - intros name' x Hnone. now rewrite (open_execute_unregistered methods k name' x b w Hnone).
  - intros name' x h Hsome Hkeeps.
    now rewrite (open_execute_registered methods k name' x b w h Hsome).
Qed.

(** X10. Whatever is registered and whatever the handler does, calls of
    [register] and [execute] on the same bus included, a call of [execute]
    returns a promise: it does not throw and the promise is not rejected.
    [execute] itself calls one handler at most, once, with the payload it
    was given, and writes nothing else: under a name that is not registered
    nothing changes, and under a registered name the state after [execute]
    is the state in which that one call of [handle] ends. *)
Theorem execute_total_reentrant methods k name x b w :
  exists p s',
    OpenBus.execute methods k name x (b, w) = (Ret p, s') /\
    (forall e, p <> Rejected e) /\
    (OpenBus.handlers b !! name = None -> s' = (b, w)) /\
    (forall h, OpenBus.handlers b !! name = Some h ->
       s' = snd (methods h x
                   (OpenBus.mk (OpenBus.handlers b)
                      (OpenBus.invoked b ++ [(h, x)]), w))).
Proof.
  destruct (OpenBus.handlers b !! name) as [h|] eqn:Hl.
  - rewrite (open_execute_registered methods k name x b w h Hl). eexists _, _.
    split; [reflexivity |]. split; [| split].
    + intros e.
      destruct (fst (methods h x (OpenBus.logged b h x, w))) as [[r | e' |] | e' |];
        discriminate.
    + discriminate.
    + intros h' [= <-]. reflexivity.
  - rewrite (open_execute_unregistered methods k name x b w Hl). eexists _, _.
    split; [reflexivity |]. split; [discriminate | split; [reflexivity | discriminate]].
Qed.
End OpenBusTheory.

(** ** The gateway *)

Section GatewayTheory.
Implicit Types (w : World) (q key : string) (mode : SearchMode).

Lemma getApiKey_absent w :
  not_key (read_key (config w)) = true ->
  getApiKey w = (Throw KeyError, w).
Proof. intros Hk. unfold getApiKey, bind, gets. now rewrite Hk. Qed.

Lemma getApiKey_present w key :
  read_key (config w) = Some key -> key <> EmptyString ->
  getApiKey w = (Ret key, w).
Proof.
  intros Hk Hne. unfold getApiKey, bind, gets. rewrite Hk.
  destruct key; [congruence | reflexivity].
Qed.

(** Without a key [exaSearch] rejects before it sends anything. *)
Lemma exaSearch_absent q mode w :
  not_key (read_key (config w)) = true ->
  exaSearch q mode w = (Ret (Rejected KeyError), w).
Proof.
  intros Hk. unfold exaSearch, async, bind. now rewrite (getApiKey_absent w Hk).
Qed.

(** With a key [exaSearch] sends one request, and settles by the answer. *)
Lemma exaSearch_present q mode w key :
  read_key (config w) = Some key -> key <> EmptyString ->
  let request := exaSearch_request key (exaSearch_body q mode) in
  exaSearch q mode w
  = (Ret (answer (network w (sent w) request)), with_sent w request).
Proof.
  intros Hk Hne request.
  unfold exaSearch, async, bind. rewrite (getApiKey_present w key Hk Hne).
  unfold fetch, await, throw, answer. fold request.
  destruct (network w (sent w) request) as [res | e |]; try reflexivity.
  destruct (res_ok res); cbn.
  - destruct (res_json res); reflexivity.
  - destruct (res_text res); reflexivity.
Qed.

Lemma body_search q :
  JSON_stringify (exaSearch_body q search)
  = Some ("{" +:+ quoted "query" +:+ ":" +:+ QuoteJSONString q +:+ ","
              +:+ quoted "type" +:+ ":" +:+ quoted "auto" +:+ ","
              +:+ quoted "numResults" +:+ ":10,"
              +:+ quoted "contents" +:+ ":{" +:+ quoted "text" +:+ ":true}}").
Proof. cbn. rewrite !append_assoc. reflexivity. Qed.

Lemma body_research q :
  JSON_stringify (exaSearch_body q research)
  = Some ("{" +:+ quoted "query" +:+ ":" +:+ QuoteJSONString q +:+ ","
              +:+ quoted "type" +:+ ":" +:+ quoted "deep" +:+ ","
              +:+ quoted "numResults" +:+ ":20,"
              +:+ quoted "contents" +:+ ":{" +:+ quoted "text" +:+ ":true,"
              +:+ quoted "highlights" +:+ ":true,"
              +:+ quoted "summary" +:+ ":true}}").
Proof. cbn. rewrite !append_assoc. reflexivity. Qed.

(** In mode "search" the text on the wire is the text of an object that has
    no [highlights] and no [summary] property at all. *)
Lemma body_search_omits q :
  JSON_stringify (exaSearch_body q search)
  = JSON_stringify
      (JsObject [("query", JsString q);
                 ("type", JsString "auto");
                 ("numResults", JsNumber 10);
                 ("contents", JsObject [("text", JsBool true)])]).
Proof. reflexivity. Qed.

Example body_rust_vs_go_search :
  match JSON_stringify (exaSearch_body "rust vs go" search) with
  | Some body => includes "highlights" body || includes "summary" body
  | None => true
  end = false.
Proof. vm_compute. reflexivity. Qed.

Example body_rust_vs_go_research :
  match JSON_stringify (exaSearch_body "rust vs go" research) with
  | Some body => includes (quoted "highlights" +:+ ":true") body
                 && includes (quoted "summary" +:+ ":true") body
  | None => false
  end = true.
Proof. vm_compute. reflexivity. Qed.

(** C5. With a key configured, [exaSearch] sends one request.  In mode
    "search" its body is the JSON text with type "auto", numResults 10 and
    contents {"text":true}: no highlights and no summary member.  In mode
    "research" it is the JSON text with type "deep", numResults 20 and
    contents with text, highlights and summary all true.  This for every
    query string. *)
Theorem exaSearch_mode_mapping q w key :
  read_key (config w) = Some key -> key <> EmptyString ->
  (exists request,
      sent (snd (exaSearch q search w)) = (sent w ++ [request])%list /\
      req_body request
      = Some ("{" +:+ quoted "query" +:+ ":" +:+ QuoteJSONString q +:+ ","
                  +:+ quoted "type" +:+ ":" +:+ quoted "auto" +:+ ","
                  +:+ quoted "numResults" +:+ ":10,"
                  +:+ quoted "contents" +:+ ":{" +:+ quoted "text" +:+ ":true}}")) /\
  (exists request,
      sent (snd (exaSearch q research w)) = (sent w ++ [request])%list /\
      req_body request
      = Some ("{" +:+ quoted "query" +:+ ":" +:+ QuoteJSONString q +:+ ","
                  +:+ quoted "type" +:+ ":" +:+ quoted "deep" +:+ ","
                  +:+ quoted "numResults" +:+ ":20,"
                  +:+ quoted "contents" +:+ ":{" +:+ quoted "text" +:+ ":true,"
                  +:+ quoted "highlights" +:+ ":true,"
                  +:+ quoted "summary" +:+ ":true}}")).
Proof.
  intros Hk Hne. split.
  - exists (exaSearch_request key (exaSearch_body q search)).
    rewrite (exaSearch_present q search w key Hk Hne).
    split; [reflexivity | apply body_search].
  - exists (exaSearch_request key (exaSearch_body q research)).
    rewrite (exaSearch_present q research w key Hk Hne).
    split; [reflexivity | apply body_research].
Qed.

(** The handler, by the way [exaSearch] settles. *)
Lemma handle_absent command w :
  not_key (read_key (config w)) = true ->
  SearchCommandHandler_handle command w
  = (Ret (Fulfilled (Result.fail ("Search failed: " +:+ describe KeyError))),
     with_line w (search_line command)).
Proof.
  intros Hk.
  unfold SearchCommandHandler_handle, async, try_catch, bind, console_log, modify.
  fold (search_line command). fold (with_line w (search_line command)).
  rewrite exaSearch_absent by exact Hk. reflexivity.
Qed.

Lemma handle_present command w key :
  read_key (config w) = Some key -> key <> EmptyString ->
  let request := exaSearch_request key (exaSearch_body (query command) (mode command)) in
  SearchCommandHandler_handle command w
  = (Ret match answer (network w (sent w) request) with
         | Fulfilled response => Fulfilled (Result.ok (Some response))
         | Rejected e => Fulfilled (Result.fail ("Search failed: " +:+ describe e))
         | Pending => Pending
         end,
     with_sent (with_line w (search_line command)) request).
Proof.
  intros Hk Hne request.
  unfold SearchCommandHandler_handle, async, try_catch, bind, console_log, modify.
  fold (search_line command). fold (with_line w (search_line command)).
  rewrite (exaSearch_present _ _ _ key) by assumption.
  fold request. cbn [with_line network sent].
  destruct (answer (network w (sent w) request)); reflexivity.
Qed.

(** The handler always returns a promise, and never a rejected one. *)
Lemma handle_never_throws command w :
  exists p w', SearchCommandHandler_handle command w = (Ret p, w') /\
               forall e, p <> Rejected e.
Proof.
  destruct (not_key (read_key (config w))) eqn:Hk.
  - rewrite (handle_absent command w Hk). eexists _, _. split; [reflexivity | discriminate].
  - destruct (read_key (config w)) as [key|] eqn:Hr; [|discriminate].
    assert (key <> EmptyString) as Hne by (intros ->; discriminate).
    rewrite (handle_present command w key Hr Hne). eexists _, _. split; [reflexivity |].
    intros e. destruct (answer _); discriminate.
Qed.

(** C6. With a key configured, when the endpoint answers with a status
    outside 200..299 and the body text [body], the search handler returns a
    promise fulfilled with a failure Result; its message is
    'Search failed: Exa API error (<status>): <body>', which contains the
    status in decimal and the body text.  Nothing is thrown or rejected. *)
Theorem search_handler_non_2xx command w key res body :
  read_key (config w) = Some key -> key <> EmptyString ->
  network w (sent w)
    (exaSearch_request key (exaSearch_body (query command) (mode command)))
  = Fulfilled res ->
  res_status res < 200 \/ 299 < res_status res ->
  res_text res = Fulfilled body ->
  exists message,
    fst (SearchCommandHandler_handle command w) = Ret (Fulfilled (Result.fail message)) /\
    message = "Search failed: Exa API error (" +:+ pretty (res_status res)
              +:+ "): " +:+ body /\
    contains (pretty (res_status res)) message /\
    contains body message.
Proof.
  intros Hk Hne Hnet Hstatus Htext.
  eexists. split; [| split; [reflexivity |]].
  - rewrite (handle_present command w key Hk Hne). cbn [fst].
    rewrite Hnet. unfold answer.
    replace (res_ok res) with false.
    + rewrite Htext. reflexivity.
    + symmetry. unfold res_ok. apply andb_false_iff.
      destruct Hstatus; [left | right]; apply Nat.leb_gt; lia.
  - split.
    + apply contains_after, contains_before, contains_refl.
    + do 3 apply contains_after. apply contains_refl.
Qed.
End GatewayTheory.

(** ** The container and the configuration *)

Section ContainerTheory.
Implicit Types (p : Container.Process) (w : World) (command : SearchCommand).

(** [new Container()] reads no configuration and sends nothing: it returns,
    in any world, the container with one handler on each bus. *)
Lemma constructor_eq w :
  Container.constructor w
  = (Ret (Container.mk
            (Bus.mk (<["SearchCommand" := SearchCommandHandler 1]> ∅) [])
            (Bus.mk (<["GetSearchResultsQuery" := GetSearchResultsQueryHandler 2]> ∅) [])),
     w).
Proof. reflexivity. Qed.

Lemma getInstance_fresh p :
  Container.instance p = None ->
  exists this,
    Container.getInstance p
    = (Ret this, {| Container.instance := Some this; Container.world := Container.world p |}) /\
    Bus.handlers (Container._commandBus this) !! "SearchCommand"
    = Some (SearchCommandHandler 1) /\
    Bus.handlers (Container._queryBus this) !! "GetSearchResultsQuery"
    = Some (GetSearchResultsQueryHandler 2).
Proof.
  intros Hnone. unfold Container.getInstance. rewrite Hnone, constructor_eq.
  eexists. split; [reflexivity |]. split; apply lookup_insert_eq.
Qed.

(** Without a key, one search through the container fails, sends nothing,
    and leaves the container wired and the configuration as it was. *)
Lemma executeSearch_absent command p :
  wired p ->
  not_key (read_key (config (Container.world p))) = true ->
  exists p',
    executeSearch command p
    = (Ret (Fulfilled (Result.fail ("Search failed: " +:+ describe KeyError))), p') /\
    wired p' /\
    config (Container.world p') = config (Container.world p) /\
    sent (Container.world p') = sent (Container.world p).
Proof.
  intros Hw Hk.
  assert (exists this,
    Container.getInstance p
    = (Ret this, {| Container.instance := Some this; Container.world := Container.world p |}) /\
    Bus.handlers (Container._commandBus this) !! "SearchCommand"
    = Some (SearchCommandHandler 1)) as (this & Hget & Hreg).
  { destruct (Container.instance p) as [this|] eqn:Hi.
    - exists this. unfold wired in Hw. rewrite Hi in Hw. split; [| exact Hw].
      unfold Container.getInstance. rewrite Hi. destruct p; cbn in *. now subst.
    - destruct (getInstance_fresh p Hi) as (this & Hget & Hreg & _). eauto. }
  unfold executeSearch, Container.on_instance, bind. rewrite Hget.
  cbn [Container.world]. unfold Container.on_commandBus, CommandBus.execute.
  rewrite (execute_registered CommandKind _ command _ _ _ Hreg).
  cbn [Bus.handle SearchCommandHandler].
  rewrite (handle_absent command _ Hk). cbn [fst snd].
  eexists. split; [reflexivity |].
  unfold wired. cbn. auto.
Qed.

Lemma executeSearches_absent (commands : list SearchCommand) p :
  wired p ->
  not_key (read_key (config (Container.world p))) = true ->
  exists p',
    executeSearches commands p
    = (Ret (replicate (length commands)
              (Fulfilled (Result.fail ("Search failed: " +:+ describe KeyError)))), p') /\
    sent (Container.world p') = sent (Container.world p).
Proof.
  revert p. induction commands as [|command rest IH]; intros p Hw Hk.
  - exists p. split; reflexivity.
  - destruct (executeSearch_absent command p Hw Hk) as (p1 & H1 & Hw1 & Hc1 & Hs1).
    destruct (IH p1 Hw1) as (p2 & H2 & Hs2); [now rewrite Hc1 |].
    exists p2. split; [| congruence].
    cbn [executeSearches]. unfold bind at 1. rewrite H1.
    unfold bind at 1. rewrite H2. reflexivity.
Qed.

(** C7. In a process where no key is configured and no container exists
    yet: the container is constructed and its handlers are registered, no
    error arises there; a call of [exaSearch] ends with the configuration
    error, raised inside the call, before any request is sent; and every
    search made through the container afterwards, however many, fails with
    that error as the message of its Result, and sends nothing. *)
Theorem api_key_checked_per_call p :
  Container.instance p = None ->
  not_key (read_key (config (Container.world p))) = true ->
  (exists this,
      Container.getInstance p
      = (Ret this, {| Container.instance := Some this;
                      Container.world := Container.world p |}) /\
      Bus.handlers (Container._commandBus this) !! "SearchCommand"
      = Some (SearchCommandHandler 1) /\
      Bus.handlers (Container._queryBus this) !! "GetSearchResultsQuery"
      = Some (GetSearchResultsQueryHandler 2)) /\
  (forall q mode,
      exaSearch q mode (Container.world p)
      = (Ret (Rejected (ErrorInstance
           "Exa API key not configured. Set VITE_EXA_API_KEY in your .env file.")),
         Container.world p)) /\
  (forall commands : list SearchCommand,
      exists p',
        executeSearches commands p
        = (Ret (replicate (length commands)
                  (Fulfilled (Result.fail
                     "Search failed: Exa API key not configured. Set VITE_EXA_API_KEY in your .env file."))),
           p') /\
        sent (Container.world p') = sent (Container.world p)).
Proof.
  intros Hnone Hk. split; [exact (getInstance_fresh p Hnone) |]. split.
  - intros q mode. exact (exaSearch_absent q mode _ Hk).
  - intros commands. apply executeSearches_absent; [| exact Hk].
    unfold wired. now rewrite Hnone.
Qed.
End ContainerTheory.

(** ** The theorems at concrete inputs *)

(** C1, as the claim states it, fails: a handler rejects with a value that
    has the message 'disk full' and is no instance of Error; the message of
    the Result is 'Error executing command: Unknown error', in which
    'disk full' does not occur. *)
Lemma execute_hides_non_Error_message :
  let b := Samples.bus "Save" Samples.rejecting in
  Bus.handlers b !! "Save" = Some Samples.rejecting /\
  Bus.handle Samples.rejecting 7 tt = (Ret (Rejected Samples.disk_full), tt) /\
  message_of Samples.disk_full = Some "disk full" /\
  fst (Bus.execute CommandKind "Save" 7 (b, tt))
  = Ret (Fulfilled (Result.fail "Error executing command: Unknown error")) /\
  ~ contains "disk full" "Error executing command: Unknown error".
Proof.
  repeat split.
  rewrite <- includes_true_iff. vm_compute. discriminate.
Qed.

(** A handler that throws an Error with the message 'boom'. *)
Lemma execute_contains_exceptions_witness :
  let b := Samples.bus "Save" Samples.throwing in
  Bus.handlers b !! "Save" = Some Samples.throwing /\
  Bus.handle Samples.throwing 7 tt = (Throw (ErrorInstance "boom"), tt) /\
  Bus.execute QueryKind "Save" 7 (b, tt)
  = (Ret (Fulfilled (Result.fail "Error executing query: boom")),
     (Bus.logged b Samples.throwing 7, tt)).
Proof.
  intros b. split; [reflexivity |]. split; [reflexivity |].
  destruct (execute_contains_exceptions QueryKind "Save" 7 b tt Samples.throwing
              (ErrorInstance "boom") tt eq_refl (or_introl eq_refl))
    as (message & Hexec & Herror & _).
  destruct (Herror "boom" eq_refl) as [-> _]. exact Hexec.
Defined.

(** A name that is not registered, beside one that is. *)
Lemma execute_unknown_name_witness :
  let b := Samples.bus "Known" Samples.doubling in
  Bus.handlers b !! "Missing" = None /\
  Bus.execute QueryKind "Missing" 7 (b, tt)
  = (Ret (Fulfilled (Result.fail "No handler registered for query: Missing")), (b, tt)).
Proof.
  intros b. split; [reflexivity |].
  exact (proj1 (execute_unknown_name QueryKind "Missing" 7 b tt eq_refl)).
Defined.

(** A failure reported by the handler itself goes through unchanged. *)
Lemma execute_passthrough_witness :
  Bus.handle Samples.refusing 7 tt = (Ret (Fulfilled (Result.fail "not today")), tt) /\
  fst ((let* _ := Bus.register "Ask" Samples.refusing in Bus.execute CommandKind "Ask" 7)
         (Bus.new, tt))
  = Ret (Fulfilled (Result.fail "not today")).
Proof.
  split; [reflexivity |].
  now rewrite (execute_passthrough CommandKind "Ask" 7 Bus.new tt Samples.refusing
                 (Result.fail "not today") tt eq_refl).
Defined.

(** The second registration wins, also on a bus that has made calls since. *)
Lemma register_overwrite_witness :
  let after :=
    snd ((let* _ := Bus.register "Ask" Samples.refusing in
          Bus.register "Ask" Samples.doubling) (Bus.new, tt)) in
  let later := Bus.mk (Bus.handlers (fst after)) [(3, 1)] in
  Bus.handlers later = Bus.handlers (fst after) /\
  Bus.execute CommandKind "Ask" 7 (later, tt)
  = (Ret (Fulfilled (Result.ok (Some 14))),
     (Bus.mk (Bus.handlers later) [(3, 1); (3, 7)], tt)).
Proof.
  intros after later. split; [reflexivity |].
  destruct (register_overwrite CommandKind "Ask" Samples.refusing Samples.doubling
              Bus.new tt) as (_ & _ & Hexec).
  exact (Hexec later tt 7 eq_refl).
Defined.

(** The two request bodies for the query 'rust vs go'. *)
Lemma exaSearch_mode_mapping_witness :
  read_key (config Samples.with_key) = Some "test-key" /\
  "test-key" <> EmptyString /\
  map req_body (sent (snd (exaSearch "rust vs go" search Samples.with_key)))
  = [Some ("{" +:+ quoted "query" +:+ ":" +:+ quoted "rust vs go" +:+ ","
               +:+ quoted "type" +:+ ":" +:+ quoted "auto" +:+ ","
               +:+ quoted "numResults" +:+ ":10,"
               +:+ quoted "contents" +:+ ":{" +:+ quoted "text" +:+ ":true}}")] /\
  map req_body (sent (snd (exaSearch "rust vs go" research Samples.with_key)))
  = [Some ("{" +:+ quoted "query" +:+ ":" +:+ quoted "rust vs go" +:+ ","
               +:+ quoted "type" +:+ ":" +:+ quoted "deep" +:+ ","
               +:+ quoted "numResults" +:+ ":20,"
               +:+ quoted "contents" +:+ ":{" +:+ quoted "text" +:+ ":true,"
               +:+ quoted "highlights" +:+ ":true,"
               +:+ quoted "summary" +:+ ":true}}")].
Proof.
  split; [reflexivity |]. split; [discriminate |].
  destruct (exaSearch_mode_mapping "rust vs go" Samples.with_key "test-key" eq_refl)
    as [(r1 & Hs1 & Hb1) (r2 & Hs2 & Hb2)]; [discriminate |].
  rewrite Hs1, Hs2. cbn [map sent Samples.with_key app]. rewrite Hb1, Hb2.
  split; reflexivity.
Defined.

(** A 500 response with the body 'rate limited'. *)
Lemma search_handler_non_2xx_witness :
  read_key (config Samples.with_key) = Some "test-key" /\
  "test-key" <> EmptyString /\
  (500 < 200 \/ 299 < 500) /\
  fst (SearchCommandHandler_handle (Samples.rust_vs_go search) Samples.with_key)
  = Ret (Fulfilled (Result.fail "Search failed: Exa API error (500): rate limited")).
Proof.
  assert (299 < 500) as Hstatus by lia.
  split; [reflexivity |]. split; [discriminate |]. split; [right; exact Hstatus |].
  destruct (search_handler_non_2xx (Samples.rust_vs_go search) Samples.with_key
              "test-key" Samples.rate_limited "rate limited"
              eq_refl ltac:(discriminate) eq_refl (or_intror Hstatus) eq_refl)
    as (message & Hhandle & -> & _).
  exact Hhandle.
Defined.

(** Two searches in a fresh process without a key. *)
Lemma api_key_checked_per_call_witness :
  let p := {| Container.instance := None; Container.world := Samples.without_key |} in
  Container.instance p = None /\
  not_key (read_key (config (Container.world p))) = true /\
  fst (executeSearches [Samples.rust_vs_go search; Samples.rust_vs_go research] p)
  = Ret (replicate 2 (Fulfilled (Result.fail
           "Search failed: Exa API key not configured. Set VITE_EXA_API_KEY in your .env file."))).
Proof.
  intros p. split; [reflexivity |]. split; [reflexivity |].
  destruct (api_key_checked_per_call p eq_refl eq_refl) as (_ & _ & Hall).
  destruct (Hall [Samples.rust_vs_go search; Samples.rust_vs_go research])
    as (p' & Hrun & _).
  now rewrite Hrun.
Defined.

(** * More of the code *)

(** ** getApiKey: where the key comes from *)

Section KeyTheory.
Implicit Types (w : World) (env : Env) (key : string).

(** X1. When [import.meta.env] has an entry for VITE_EXA_API_KEY, that entry
    decides, whatever [process.env] holds: a non-empty value is the key, and
    an empty value makes [getApiKey] throw, also when [process.env] has a
    key. *)
Theorem getApiKey_import_meta_decides w env key :
  import_meta_env (config w) = Some env ->
  env !! "VITE_EXA_API_KEY" = Some key ->
  getApiKey w
  = (if is_empty key
     then Throw (ErrorInstance
            "Exa API key not configured. Set VITE_EXA_API_KEY in your .env file.")
     else Ret key, w).
Proof.
  intros Henv Hkey. unfold getApiKey, bind, gets, read_key.
  rewrite Henv, Hkey. destruct key; reflexivity.
Qed.

(** X2. When [import.meta.env] is missing, or has no entry for
    VITE_EXA_API_KEY, a non-empty entry of [process.env] is the key. *)
Theorem getApiKey_falls_back w env key :
  (import_meta_env (config w) = None \/
   exists ime, import_meta_env (config w) = Some ime /\ ime !! "VITE_EXA_API_KEY" = None) ->
  process_env (config w) = Some env ->
  env !! "VITE_EXA_API_KEY" = Some key ->
  key <> EmptyString ->
  getApiKey w = (Ret key, w).
Proof.
  intros Hime Henv Hkey Hne. apply getApiKey_present; [| exact Hne].
  unfold read_key. rewrite Henv, Hkey.
  destruct Hime as [-> | (ime & -> & ->)]; reflexivity.
Qed.

End KeyTheory.

(** ** exaSearch and the search handler: every way a call can end *)

Section OutcomeTheory.
Implicit Types (w : World) (q key : string) (mode : SearchMode).
Implicit Types (command : SearchCommand) (res : Response).

(** X3. With a key configured, the one request of [exaSearch] is a POST to
    https://api.exa.ai/search with the content type application/json and
    the key, unchanged, in the header x-api-key. *)
Theorem exaSearch_request_envelope q mode w key :
  read_key (config w) = Some key -> key <> EmptyString ->
  exists request,
    sent (snd (exaSearch q mode w)) = (sent w ++ [request])%list /\
    req_url request = "https://api.exa.ai/search" /\
    req_method request = "POST" /\
    req_headers request
    = [("Content-Type", "application/json"); ("x-api-key", key)].
Proof.
  intros Hk Hne. exists (exaSearch_request key (exaSearch_body q mode)).
  rewrite (exaSearch_present q mode w key Hk Hne). repeat split.
Qed.

(** X4. With a key configured, when the endpoint answers with a status in
    200..299 and a body that parses to [response], the handler's promise is
    fulfilled with a success Result; its [value] getter returns [response];
    the text of the body is not asked for. *)
Theorem search_handler_success command w key res response :
  read_key (config w) = Some key -> key <> EmptyString ->
  network w (sent w)
    (exaSearch_request key (exaSearch_body (query command) (mode command)))
  = Fulfilled res ->
  200 <= res_status res <= 299 ->
  res_json res = Fulfilled response ->
  exists r,
    fst (SearchCommandHandler_handle command w) = Ret (Fulfilled r) /\
    Result.isSuccess r = true /\
    Result.value r = inr (Some response).
Proof.
  intros Hk Hne Hnet [Hlo Hhi] Hjson.
  exists (Result.ok (Some response)).
  rewrite (handle_present command w key Hk Hne). cbn [fst].
  rewrite Hnet. unfold answer.
  replace (res_ok res) with true.
  - rewrite Hjson. repeat split.
  - symmetry. unfold res_ok. apply andb_true_iff. split; now apply Nat.leb_le.
Qed.

(** X5. With a key configured, when [fetch] itself fails (its promise is
    rejected with [e]), [exaSearch] passes the rejection on as it is, and
    the handler turns it into the failure Result 'Search failed: ' followed
    by the message of [e], or by 'Unknown error' when [e] is no Error. *)
Theorem search_handler_network_failure command w key e :
  read_key (config w) = Some key -> key <> EmptyString ->
  network w (sent w)
    (exaSearch_request key (exaSearch_body (query command) (mode command)))
  = Rejected e ->
  fst (exaSearch (query command) (mode command) w) = Ret (Rejected e) /\
  fst (SearchCommandHandler_handle command w)
  = Ret (Fulfilled (Result.fail
           ("Search failed: " +:+ match e with
                                  | ErrorInstance message => message
                                  | NonError _ => "Unknown error"
                                  end))).
Proof.
  intros Hk Hne Hnet. split.
  - rewrite (exaSearch_present _ _ w key Hk Hne). cbn [fst]. now rewrite Hnet.
  - rewrite (handle_present command w key Hk Hne). cbn [fst]. now rewrite Hnet.
Qed.

(** X6. With a key configured, when the endpoint answers with a status in
    200..299 and a body that does not parse ([json()] rejects with an Error
    with the message [m]), the handler's Result is the failure
    'Search failed: ' followed by [m]. *)
Theorem search_handler_malformed_body command w key res m :
  read_key (config w) = Some key -> key <> EmptyString ->
  network w (sent w)
    (exaSearch_request key (exaSearch_body (query command) (mode command)))
  = Fulfilled res ->
  200 <= res_status res <= 299 ->
  res_json res = Rejected (ErrorInstance m) ->
  fst (SearchCommandHandler_handle command w)
  = Ret (Fulfilled (Result.fail ("Search failed: " +:+ m))).
Proof.
  intros Hk Hne Hnet [Hlo Hhi] Hjson.
  rewrite (handle_present command w key Hk Hne). cbn [fst].
  rewrite Hnet. unfold answer.
  replace (res_ok res) with true.
  - now rewrite Hjson.
  - symmetry. unfold res_ok. apply andb_true_iff. split; now apply Nat.leb_le.
Qed.

(** X7. There is no deadline: with a key configured, when the promise of
    [fetch] never settles, the promise of the handler never settles. *)
Theorem search_handler_no_timeout command w key :
  read_key (config w) = Some key -> key <> EmptyString ->
  network w (sent w)
    (exaSearch_request key (exaSearch_body (query command) (mode command)))
  = Pending ->
  fst (SearchCommandHandler_handle command w) = Ret Pending.
Proof.
  intros Hk Hne Hnet.
  rewrite (handle_present command w key Hk Hne). cbn [fst]. now rewrite Hnet.
Qed.

(** X8. What a call of the handler does to the world, in every world: it
    prints one line, it sends one request when a key is configured and none
    otherwise (so never a second one), and it leaves the configuration as
    it was. *)
Theorem search_handler_footprint command w :
  let w' := snd (SearchCommandHandler_handle command w) in
  console w'
  = (console w ++ ["Executing Exa " +:+ SearchMode_text (mode command)
                   +:+ " for: " +:+ dq +:+ query command +:+ dq])%list /\
  config w' = config w /\
  (not_key (read_key (config w)) = true -> sent w' = sent w) /\
  (not_key (read_key (config w)) = false ->
   exists request, sent w' = (sent w ++ [request])%list).
Proof.
  cbn zeta. destruct (not_key (read_key (config w))) eqn:Hk.
  - rewrite (handle_absent command w Hk). cbn. repeat split. discriminate.
  - destruct (read_key (config w)) as [key|] eqn:Hr; [|discriminate].
    assert (key <> EmptyString) as Hne by (intros ->; discriminate).
    rewrite (handle_present command w key Hr Hne). cbn.
    repeat split; [discriminate | eauto].
Qed.

(** X9. In every world the handler returns a promise; it does not throw,
    and the promise is not rejected; when the promise is fulfilled, the
    Result is a success or a failure whose message starts with
    'Search failed: '. *)
Theorem search_handler_outcomes command w :
  exists p,
    fst (SearchCommandHandler_handle command w) = Ret p /\
    match p with
    | Fulfilled r =>
        (exists response, r = Result.ok (Some response)) \/
        (exists m, r = Result.fail ("Search failed: " +:+ m))
    | Rejected _ => False
    | Pending => True
    end.
Proof.
  destruct (not_key (read_key (config w))) eqn:Hk.
  - rewrite (handle_absent command w Hk). eexists. split; [reflexivity |].
    right. eauto.
  - destruct (read_key (config w)) as [key|] eqn:Hr; [|discriminate].
    assert (key <> EmptyString) as Hne by (intros ->; discriminate).
    rewrite (handle_present command w key Hr Hne). eexists. split; [reflexivity |].
    destruct (answer _); [left | right | exact I]; eauto.
Qed.
End OutcomeTheory.

(** ** The buses: the whole of [execute], and how registrations compose *)

Section MoreBusTheory.
Context {W P T : Type}.
Implicit Types (b : Bus.t W P T) (w : W) (H : Bus.Handler W P T).
Implicit Types (name : string) (x : P) (k : BusKind).

Lemma execute_total_aux k name x b w :
  exists p b' w',
    Bus.execute k name x (b, w) = (Ret p, (b', w')) /\
    Bus.handlers b' = Bus.handlers b.
Proof.
  destruct (Bus.handlers b !! name) as [H|] eqn:Hl.
  - rewrite (execute_registered k name x b w H Hl). eexists _, _, _.
    split; reflexivity.
  - rewrite (execute_unregistered k name x b w Hl). eexists _, _, _.
    split; reflexivity.
Qed.

(** X11. The bus sets no deadline either: when the promise of the handler
    never settles, the promise of [execute] never settles. *)
Theorem execute_no_timeout k name x b w H w' :
  Bus.handlers b !! name = Some H ->
  Bus.handle H x w = (Ret Pending, w') ->
  Bus.execute k name x (b, w) = (Ret Pending, (Bus.logged b H x, w')).
Proof.
  intros Hsome Hh. rewrite (execute_registered k name x b w H Hsome).
  now rewrite Hh.
Qed.

(** X12. Registrations under different names do not depend on their order:
    the bus is the same after both. *)
Theorem register_commutes name1 name2 H1 H2 b w :
  name1 <> name2 ->
  (let* _ := Bus.register name1 H1 in Bus.register name2 H2) (b, w)
  = (let* _ := Bus.register name2 H2 in Bus.register name1 H1) (b, w).
Proof.
  intros Hne. unfold bind. rewrite !register_eq. cbn.
  now rewrite insert_insert_ne.
Qed.

(** X13. No sequence of calls of [register] and [execute] takes a name out
    of the registry: the names registered before are registered after, and
    the sequence runs to its end without an exception. *)
Theorem registry_only_grows k (calls : list (Call W P T)) b w :
  exists b' w',
    run_calls k calls (b, w) = (Ret tt, (b', w')) /\
    dom (Bus.handlers b) ⊆ dom (Bus.handlers b').
Proof.
  revert b w. induction calls as [|[name H | name x] calls IH]; intros b w.
  - exists b, w. split; [reflexivity | set_solver].
  - cbn [run_calls]. unfold bind at 1. rewrite register_eq.
    destruct (IH (Bus.mk (<[name := H]> (Bus.handlers b)) (Bus.invoked b)) w)
      as (b' & w' & Hrun & Hdom).
    exists b', w'. split; [exact Hrun |].
    cbn in Hdom. rewrite dom_insert_L in Hdom. set_solver.
  - cbn [run_calls]. unfold bind at 1.
    destruct (execute_total_aux k name x b w) as (p & b1 & w1 & Hexec & Hh).
    rewrite Hexec.
    destruct (IH b1 w1) as (b' & w' & Hrun & Hdom).
    exists b', w'. split; [exact Hrun |]. now rewrite <- Hh.
Qed.
End MoreBusTheory.

(** ** The container: one instance, two separate registries *)

Section MoreContainerTheory.
Implicit Types (p : Container.Process) (w : World) (command : SearchCommand).

Lemma getInstance_returns p :
  exists this,
    Container.getInstance p
    = (Ret this, {| Container.instance := Some this;
                    Container.world := Container.world p |}).
Proof.
  unfold Container.getInstance. destruct p as [[this|] w]; cbn [Container.instance Container.world].
  - now exists this.
  - rewrite constructor_eq. eauto.
Qed.


(** X15. What is registered through the instance is seen through every
    later [getInstance]: the container is shared state. *)
Theorem getInstance_shares_registrations p name H :
  let p1 := snd (Container.on_instance
                   (Container.on_commandBus (CommandBus.register name H)) p) in
  exists this,
    Container.getInstance p1 = (Ret this, p1) /\
    Bus.handlers (Container._commandBus this) !! name = Some H.
Proof.
  cbn zeta. unfold Container.on_instance, bind.
  destruct (getInstance_returns p) as (this & ->).
  unfold Container.on_commandBus, CommandBus.register. cbn [Container.world].
  rewrite register_eq. cbn.
  eexists. split; [reflexivity |]. cbn. apply lookup_insert_eq.
Qed.

(** X16. The two buses of a new container are two registries: the command
    bus knows the one name SearchCommand, the query bus the one name
    GetSearchResultsQuery, and a name sent to the other bus is answered
    with 'No handler registered'. *)
Theorem container_buses_are_separate p command (q : GetSearchResultsQuery) :
  Container.instance p = None ->
  (exists this p1,
      Container.getInstance p = (Ret this, p1) /\
      dom (Bus.handlers (Container._commandBus this)) = {["SearchCommand"]} /\
      dom (Bus.handlers (Container._queryBus this)) = {["GetSearchResultsQuery"]}) /\
  fst (Container.on_instance
         (Container.on_commandBus (CommandBus.execute "GetSearchResultsQuery" command)) p)
  = Ret (Fulfilled (Result.fail
           "No handler registered for command: GetSearchResultsQuery")) /\
  fst (Container.on_instance
         (Container.on_queryBus (QueryBus.execute "SearchCommand" q)) p)
  = Ret (Fulfilled (Result.fail "No handler registered for query: SearchCommand")).
Proof.
  intros Hnone.
  assert (Container.getInstance p
          = (Ret (Container.mk
                    (Bus.mk (<["SearchCommand" := SearchCommandHandler 1]> ∅) [])
                    (Bus.mk (<["GetSearchResultsQuery" := GetSearchResultsQueryHandler 2]> ∅) [])),
             {| Container.instance := Some (Container.mk
                    (Bus.mk (<["SearchCommand" := SearchCommandHandler 1]> ∅) [])
                    (Bus.mk (<["GetSearchResultsQuery" := GetSearchResultsQueryHandler 2]> ∅) []));
                Container.world := Container.world p |})) as Hget.
  { unfold Container.getInstance. now rewrite Hnone, constructor_eq. }
  split; [| split].
  - eexists _, _. split; [exact Hget |]. cbn.
    split; rewrite dom_insert_L, dom_empty_L; set_solver.
  - unfold Container.on_instance, bind. rewrite Hget.
    unfold Container.on_commandBus, CommandBus.execute. cbn [Container._commandBus Container.world].
    rewrite execute_unregistered; [reflexivity |].
    cbn. now rewrite lookup_insert_ne.
  - unfold Container.on_instance, bind. rewrite Hget.
    unfold Container.on_queryBus, QueryBus.execute. cbn [Container._queryBus Container.world].
    rewrite execute_unregistered; [reflexivity |].
    cbn. now rewrite lookup_insert_ne.
Qed.

(** X17. The query side needs no key and no network: in a new process, in
    any world, the query GetSearchResultsQuery is answered with a success
    Result carrying the same two sample results, whatever [searchId] it
    asks for; no request is sent; one line is printed. *)
Theorem query_needs_no_network p (q : GetSearchResultsQuery) :
  Container.instance p = None ->
  exists p',
    Container.on_instance
      (Container.on_queryBus (QueryBus.execute "GetSearchResultsQuery" q)) p
    = (Ret (Fulfilled (Result.ok (Some
         [ {| sample_id := 1; sample_title := "Result 1";
              sample_description := "Sample result 1" |};
           {| sample_id := 2; sample_title := "Result 2";
              sample_description := "Sample result 2" |} ]))), p') /\
    sent (Container.world p') = sent (Container.world p) /\
    console (Container.world p')
    = (console (Container.world p)
       ++ ["Fetching results for search: " +:+ searchId q])%list.
Proof.
  intros Hnone. unfold Container.on_instance, bind, Container.getInstance.
  rewrite Hnone, constructor_eq.
  unfold Container.on_queryBus, QueryBus.execute. cbn [Container._queryBus Container.world].
  rewrite (execute_registered QueryKind "GetSearchResultsQuery" q _ _
             (GetSearchResultsQueryHandler 2)) by apply lookup_insert_eq.
  eexists. split; [reflexivity |]. split; reflexivity.
Qed.

(** Through a wired container, a search is one call of the search handler. *)
Lemma executeSearch_wired command p :
  wired p ->
  exists p',
    executeSearch command p
    = (Ret (Bus.settle CommandKind
              (fst (SearchCommandHandler_handle command (Container.world p)))), p') /\
    wired p' /\
    Container.world p' = snd (SearchCommandHandler_handle command (Container.world p)).
Proof.
  intros Hw.
  assert (exists this,
    Container.getInstance p
    = (Ret this, {| Container.instance := Some this; Container.world := Container.world p |}) /\
    Bus.handlers (Container._commandBus this) !! "SearchCommand"
    = Some (SearchCommandHandler 1)) as (this & Hget & Hreg).
  { destruct (Container.instance p) as [this|] eqn:Hi.
    - exists this. unfold wired in Hw. rewrite Hi in Hw. split; [| exact Hw].
      unfold Container.getInstance. rewrite Hi. destruct p; cbn in *. now subst.
    - destruct (getInstance_fresh p Hi) as (this & Hget & Hreg & _). eauto. }
  unfold executeSearch, Container.on_instance, bind. rewrite Hget.
  cbn [Container.world]. unfold Container.on_commandBus, CommandBus.execute.
  rewrite (execute_registered CommandKind _ command _ _ _ Hreg).
  cbn [Bus.handle SearchCommandHandler fst snd].
  eexists. split; [reflexivity |]. split; [| reflexivity].
  unfold wired. cbn. exact Hreg.
Qed.

(** Through any container, a search returns a promise that is not rejected. *)
Lemma executeSearch_returns command p :
  exists pr p', executeSearch command p = (Ret pr, p') /\ forall e, pr <> Rejected e.
Proof.
  unfold executeSearch, Container.on_instance, bind.
  destruct (getInstance_returns p) as (this & ->).
  unfold Container.on_commandBus, CommandBus.execute. cbn [Container.world].
  destruct (execute_never_throws CommandKind "SearchCommand" command
              (Container._commandBus this) (Container.world p))
    as (pr & [b' w'] & Hexec & Hnot).
  rewrite Hexec. eauto.
Qed.

(** X18. Through the container as [registerHandlers] wires it, a search
    never arrives as an exception or a rejection, and the bus's own
    'Error executing command' is never its answer: the promise stays
    pending, or is fulfilled with a success, or with a failure whose
    message starts with 'Search failed: '. *)
Theorem search_through_container command p :
  wired p ->
  exists pr,
    fst (executeSearch command p) = Ret pr /\
    match pr with
    | Fulfilled r =>
        (exists response, r = Result.ok (Some response)) \/
        (exists m, r = Result.fail ("Search failed: " +:+ m))
    | Rejected _ => False
    | Pending => True
    end.
Proof.
  intros Hw. destruct (executeSearch_wired command p Hw) as (p' & -> & _ & _).
  cbn [fst]. eexists. split; [reflexivity |].
  destruct (not_key (read_key (config (Container.world p)))) eqn:Hk.
  - rewrite (handle_absent command _ Hk). cbn. right. eauto.
  - destruct (read_key (config (Container.world p))) as [key|] eqn:Hr; [|discriminate].
    assert (key <> EmptyString) as Hne by (intros ->; discriminate).
    rewrite (handle_present command _ key Hr Hne). cbn [fst].
    destruct (answer _); cbn; [left | right | exact I]; eauto.
Qed.
End MoreContainerTheory.

(** ** The search page *)

Section PageTheory.
Implicit Types (b : SearchPage.Browser) (m : SearchMode).

(** A search with a query that is not blank, by the way the call of the
    command bus ends. *)
Lemma page_executeSearch_eq m b pr p' :
  is_empty (trim (SearchPage.s_query (SearchPage.page b))) = false ->
  executeSearch (SearchPage.command_of b m) (SearchPage.process b) = (Ret pr, p') ->
  SearchPage.executeSearch m b
  = (Ret match pr with Pending => Pending | _ => Fulfilled tt end,
     {| SearchPage.page :=
          match pr with
          | Pending => SearchPage.started (SearchPage.page b)
          | Rejected e =>
              SearchPage.finished (SearchPage.page b)
                (Some match e with
                      | ErrorInstance message => message
                      | NonError _ => "An unexpected error occurred"
                      end) [] None
          | Fulfilled r =>
              if Result.isFailure r then SearchPage.finished (SearchPage.page b) (Result._error r) [] None
              else
                match Result._value r with
                | None =>
                    SearchPage.finished (SearchPage.page b)
                      (Some "Cannot read properties of undefined (reading 'results')")
                      [] None
                | Some data =>
                    SearchPage.finished (SearchPage.page b) None (ExaTypes.results data)
                      (Some {| SearchPage.info_searchType := ExaTypes.searchType data;
                               SearchPage.info_cost := ExaTypes.costDollars data;
                               SearchPage.info_count := length (ExaTypes.results data) |})
                end
          end;
        SearchPage.process := p';
        SearchPage.runtime := constructed (SearchPage.runtime b) |}).
Proof.
  intros Hq Hexec.
  unfold SearchPage.executeSearch, async, bind at 1, gets. rewrite Hq.
  unfold bind, SearchPage.setLoading, SearchPage.setError, SearchPage.setResults, SearchPage.setSearchInfo, SearchPage.on_page, modify,
    try_finally, try_catch, SearchPage.on_runtime, SearchPage.on_process, SearchCommand_constructor,
    BaseCommand_constructor, Date_new, crypto_randomUUID, bind, ret, await, getter, throw.
  cbn [SearchPage.page SearchPage.process SearchPage.runtime SearchPage.s_query SearchPage.s_mode SearchPage.s_results SearchPage.s_loading SearchPage.s_error
       SearchPage.s_showResearchWarning SearchPage.s_searchInfo fst snd clock clock_reads uuids uuids_drawn].
  change {| timestamp := clock (SearchPage.runtime b) (clock_reads (SearchPage.runtime b));
            commandId := uuids (SearchPage.runtime b) (uuids_drawn (SearchPage.runtime b));
            query := SearchPage.s_query (SearchPage.page b); mode := m |} with (SearchPage.command_of b m).
  rewrite Hexec.
  destruct pr as [[[] v e] | e |]; try reflexivity.
  destruct v; reflexivity.
Qed.

(** X19. A query that is empty or all white space is refused on the page:
    the message 'Please enter a search query' is shown and nothing else
    happens; no command is constructed, no handler is called, no request is
    sent, no line is printed, and the spinner is not started. *)
Theorem page_refuses_blank_query m b :
  is_empty (trim (SearchPage.s_query (SearchPage.page b))) = true ->
  SearchPage.executeSearch m b
  = (Ret (Fulfilled tt),
     {| SearchPage.page := {| SearchPage.s_query := SearchPage.s_query (SearchPage.page b); SearchPage.s_mode := SearchPage.s_mode (SearchPage.page b);
                   SearchPage.s_results := SearchPage.s_results (SearchPage.page b);
                   SearchPage.s_loading := SearchPage.s_loading (SearchPage.page b);
                   SearchPage.s_error := Some "Please enter a search query";
                   SearchPage.s_showResearchWarning := SearchPage.s_showResearchWarning (SearchPage.page b);
                   SearchPage.s_searchInfo := SearchPage.s_searchInfo (SearchPage.page b) |};
        SearchPage.process := SearchPage.process b;
        SearchPage.runtime := SearchPage.runtime b |}).
Proof.
  intros Hq. unfold SearchPage.executeSearch, async, bind, gets. now rewrite Hq.
Qed.

(** X20. A search never ends in a rejection, whatever handler is registered
    under SearchCommand; when it ends, the spinner is off, whether it
    succeeded or failed; the spinner stays on only while the promise of the
    bus is pending, for ever if that never settles. *)
Theorem page_spinner m b :
  is_empty (trim (SearchPage.s_query (SearchPage.page b))) = false ->
  exists pr b',
    SearchPage.executeSearch m b = (Ret pr, b') /\
    (pr = Fulfilled tt /\ SearchPage.s_loading (SearchPage.page b') = false \/
     pr = Pending /\ SearchPage.s_loading (SearchPage.page b') = true).
Proof.
  intros Hq.
  destruct (executeSearch_returns (SearchPage.command_of b m) (SearchPage.process b)) as (pr & p' & Hexec & Hnot).
  rewrite (page_executeSearch_eq m b pr p' Hq Hexec). eexists _, _.
  split; [reflexivity |].
  destruct pr as [r | e |]; [left | now destruct (Hnot e) | right; split; reflexivity].
  split; [reflexivity |]. cbn [SearchPage.page].
  destruct (Result.isFailure r); [reflexivity |].
  destruct (Result._value r); reflexivity.
Qed.

(** X21. Without a key, a search from the page ends with the message
    'Search failed: Exa API key not configured. Set VITE_EXA_API_KEY in
    your .env file.' on the page, the earlier results and summary cleared,
    the spinner off, and no request sent. *)
Theorem page_shows_missing_key m b :
  wired (SearchPage.process b) ->
  not_key (read_key (config (Container.world (SearchPage.process b)))) = true ->
  is_empty (trim (SearchPage.s_query (SearchPage.page b))) = false ->
  let b' := snd (SearchPage.executeSearch m b) in
  SearchPage.page b'
  = SearchPage.finished (SearchPage.page b)
      (Some "Search failed: Exa API key not configured. Set VITE_EXA_API_KEY in your .env file.")
      [] None /\
  sent (Container.world (SearchPage.process b')) = sent (Container.world (SearchPage.process b)).
Proof.
  intros Hw Hk Hq. cbn zeta.
  destruct (executeSearch_wired (SearchPage.command_of b m) (SearchPage.process b) Hw) as (p' & Hexec & _ & Hworld).
  rewrite (handle_absent _ _ Hk) in Hexec, Hworld. cbn [fst snd Bus.settle] in Hexec, Hworld.
  rewrite (page_executeSearch_eq m b _ p' Hq Hexec). cbn [snd SearchPage.page SearchPage.process].
  split; [reflexivity | now rewrite Hworld].
Qed.

(** X22. With a key, when the endpoint answers with a status in 200..299
    and a body that parses to [data], the page ends with the results of
    [data], the summary (search type, cost, and the number of results), no
    error message, and the spinner off. *)
Theorem page_shows_results m b key res data :
  wired (SearchPage.process b) ->
  is_empty (trim (SearchPage.s_query (SearchPage.page b))) = false ->
  read_key (config (Container.world (SearchPage.process b))) = Some key -> key <> EmptyString ->
  network (Container.world (SearchPage.process b)) (sent (Container.world (SearchPage.process b)))
    (exaSearch_request key (exaSearch_body (SearchPage.s_query (SearchPage.page b)) m))
  = Fulfilled res ->
  200 <= res_status res <= 299 ->
  res_json res = Fulfilled data ->
  SearchPage.page (snd (SearchPage.executeSearch m b))
  = SearchPage.finished (SearchPage.page b) None (ExaTypes.results data)
      (Some {| SearchPage.info_searchType := ExaTypes.searchType data;
               SearchPage.info_cost := ExaTypes.costDollars data;
               SearchPage.info_count := length (ExaTypes.results data) |}).
Proof.
  intros Hw Hq Hk Hne Hnet [Hlo Hhi] Hjson.
  destruct (executeSearch_wired (SearchPage.command_of b m) (SearchPage.process b) Hw) as (p' & Hexec & _ & _).
  rewrite (handle_present _ _ key Hk Hne) in Hexec. cbn [fst] in Hexec.
  change (query (SearchPage.command_of b m)) with (SearchPage.s_query (SearchPage.page b)) in Hexec.
  change (mode (SearchPage.command_of b m)) with m in Hexec.
  rewrite Hnet in Hexec. unfold answer in Hexec.
  replace (res_ok res) with true in Hexec.
  2:{ symmetry. unfold res_ok. apply andb_true_iff. split; now apply Nat.leb_le. }
  rewrite Hjson in Hexec. cbn [Bus.settle] in Hexec.
  now rewrite (page_executeSearch_eq m b _ p' Hq Hexec).
Qed.

(** X23. In research mode, submitting only opens the warning dialog: no
    search starts, no request is sent, nothing else on the page changes. *)
Theorem page_research_asks_first b :
  SearchPage.s_mode (SearchPage.page b) = research ->
  SearchPage.handleSubmit b
  = (Ret tt,
     {| SearchPage.page := {| SearchPage.s_query := SearchPage.s_query (SearchPage.page b); SearchPage.s_mode := SearchPage.s_mode (SearchPage.page b);
                   SearchPage.s_results := SearchPage.s_results (SearchPage.page b);
                   SearchPage.s_loading := SearchPage.s_loading (SearchPage.page b);
                   SearchPage.s_error := SearchPage.s_error (SearchPage.page b);
                   SearchPage.s_showResearchWarning := true;
                   SearchPage.s_searchInfo := SearchPage.s_searchInfo (SearchPage.page b) |};
        SearchPage.process := SearchPage.process b;
        SearchPage.runtime := SearchPage.runtime b |}).
Proof.
  intros Hm. unfold SearchPage.handleSubmit, bind, gets.
  replace (SearchMode_eqb (SearchPage.s_mode (SearchPage.page b)) research) with true
    by now rewrite Hm.
  reflexivity.
Qed.

Lemma confirmResearch_eq b pr b' :
  SearchPage.executeSearch research
    {| SearchPage.page :=
         {| SearchPage.s_query := SearchPage.s_query (SearchPage.page b);
            SearchPage.s_mode := SearchPage.s_mode (SearchPage.page b);
            SearchPage.s_results := SearchPage.s_results (SearchPage.page b);
            SearchPage.s_loading := SearchPage.s_loading (SearchPage.page b);
            SearchPage.s_error := SearchPage.s_error (SearchPage.page b);
            SearchPage.s_showResearchWarning := false;
            SearchPage.s_searchInfo := SearchPage.s_searchInfo (SearchPage.page b) |};
       SearchPage.process := SearchPage.process b;
       SearchPage.runtime := SearchPage.runtime b |}
  = (Ret pr, b') ->
  SearchPage.confirmResearch b = (Ret tt, b').
Proof.
  intros Hexec.
  unfold SearchPage.confirmResearch, bind, SearchPage.setShowResearchWarning,
    SearchPage.on_page, modify.
  now rewrite Hexec.
Qed.

(** X24. Confirming the dialog closes it and runs the search in research
    mode: with a key and a query that is not blank, one request is sent and
    its body is the research body (type "deep", 20 results, text,
    highlights and summary) for the query on the page. *)
Theorem page_confirm_sends_research b key :
  wired (SearchPage.process b) ->
  is_empty (trim (SearchPage.s_query (SearchPage.page b))) = false ->
  read_key (config (Container.world (SearchPage.process b))) = Some key ->
  key <> EmptyString ->
  let b' := snd (SearchPage.confirmResearch b) in
  SearchPage.s_showResearchWarning (SearchPage.page b') = false /\
  exists request,
    sent (Container.world (SearchPage.process b'))
    = (sent (Container.world (SearchPage.process b)) ++ [request])%list /\
    req_body request
    = Some ("{" +:+ quoted "query" +:+ ":"
                +:+ QuoteJSONString (SearchPage.s_query (SearchPage.page b)) +:+ ","
                +:+ quoted "type" +:+ ":" +:+ quoted "deep" +:+ ","
                +:+ quoted "numResults" +:+ ":20,"
                +:+ quoted "contents" +:+ ":{" +:+ quoted "text" +:+ ":true,"
                +:+ quoted "highlights" +:+ ":true,"
                +:+ quoted "summary" +:+ ":true}}").
Proof.
  intros Hw Hq Hk Hne. cbn zeta.
  set (b1 := {| SearchPage.page :=
         {| SearchPage.s_query := SearchPage.s_query (SearchPage.page b);
            SearchPage.s_mode := SearchPage.s_mode (SearchPage.page b);
            SearchPage.s_results := SearchPage.s_results (SearchPage.page b);
            SearchPage.s_loading := SearchPage.s_loading (SearchPage.page b);
            SearchPage.s_error := SearchPage.s_error (SearchPage.page b);
            SearchPage.s_showResearchWarning := false;
            SearchPage.s_searchInfo := SearchPage.s_searchInfo (SearchPage.page b) |};
       SearchPage.process := SearchPage.process b;
       SearchPage.runtime := SearchPage.runtime b |}).
  destruct (executeSearch_wired (SearchPage.command_of b1 research)
              (SearchPage.process b1) Hw) as (p' & Hexec & _ & Hworld).
  pose proof (page_executeSearch_eq research b1 _ p' Hq Hexec) as Hpage.
  rewrite (confirmResearch_eq b _ _ Hpage). cbn [snd SearchPage.page SearchPage.process].
  split.
  - destruct (Bus.settle _ _) as [r | e |]; cbn; [| reflexivity | reflexivity].
    destruct (Result.isFailure r); [reflexivity |].
    destruct (Result._value r); reflexivity.
  - exists (exaSearch_request key
              (exaSearch_body (SearchPage.s_query (SearchPage.page b)) research)).
    rewrite Hworld. cbn [SearchPage.process b1].
    rewrite (handle_present _ _ key Hk Hne). cbn [snd with_sent with_line sent].
    split; [reflexivity | apply body_research].
Qed.
(** X29. In search mode, submitting runs the search at once, in mode
    "search": with a key and a query that is not blank, one request is
    sent; its body has type "auto" and 10 results, and carries the query as
    it was typed: the white space around it, which the blank test ignores,
    is sent along. *)
Theorem page_submit_sends_search b key :
  SearchPage.s_mode (SearchPage.page b) = search ->
  wired (SearchPage.process b) ->
  is_empty (trim (SearchPage.s_query (SearchPage.page b))) = false ->
  read_key (config (Container.world (SearchPage.process b))) = Some key ->
  key <> EmptyString ->
  exists request,
    sent (Container.world (SearchPage.process (snd (SearchPage.handleSubmit b))))
    = (sent (Container.world (SearchPage.process b)) ++ [request])%list /\
    req_body request
    = Some ("{" +:+ quoted "query" +:+ ":"
                +:+ QuoteJSONString (SearchPage.s_query (SearchPage.page b)) +:+ ","
                +:+ quoted "type" +:+ ":" +:+ quoted "auto" +:+ ","
                +:+ quoted "numResults" +:+ ":10,"
                +:+ quoted "contents" +:+ ":{" +:+ quoted "text" +:+ ":true}}").
Proof.
  intros Hm Hw Hq Hk Hne.
  destruct (executeSearch_wired (SearchPage.command_of b search)
              (SearchPage.process b) Hw) as (p' & Hexec & _ & Hworld).
  pose proof (page_executeSearch_eq search b _ p' Hq Hexec) as Hpage.
  unfold SearchPage.handleSubmit, bind, gets.
  replace (SearchMode_eqb (SearchPage.s_mode (SearchPage.page b)) research) with false
    by now rewrite Hm.
  rewrite Hpage. cbn [snd SearchPage.process ret].
  exists (exaSearch_request key
            (exaSearch_body (SearchPage.s_query (SearchPage.page b)) search)).
  rewrite Hworld. rewrite (handle_present _ _ key Hk Hne).
  cbn [snd with_sent with_line sent].
  split; [reflexivity | apply body_search].
Qed.
End PageTheory.

(** ** The preload script *)

Section PreloadTheory.
Context {D F : Type}.
Implicit Types (i : Preload.Ipc D F) (channel : string) (data : D) (func : F).

Lemma Array_includes_one (valid channel : string) :
  Preload.Array_includes [valid] channel = true <-> channel = valid.
Proof.
  unfold Preload.Array_includes. cbn. rewrite orb_false_r. apply String.eqb_eq.
Qed.

(** X25. [sendCommand] passes a message on only on the channel
    'execute-command', and [sendQuery] only on 'execute-query': on its own
    channel each invokes the main process once, with the data as given, and
    returns the promise of the answer; on every other channel each returns
    [undefined] and nothing reaches the main process. *)
Theorem senders_pass_one_channel channel data i :
  Preload.sendCommand channel data i
  = (if String.eqb channel "execute-command"
     then (Ret (Some (Preload.main i (Preload.invocations i) channel data)),
           {| Preload.invocations := Preload.invocations i ++ [(channel, data)];
              Preload.main := Preload.main i;
              Preload.listeners := Preload.listeners i;
              Preload.created := Preload.created i |})
     else (Ret None, i)) /\
  Preload.sendQuery channel data i
  = (if String.eqb channel "execute-query"
     then (Ret (Some (Preload.main i (Preload.invocations i) channel data)),
           {| Preload.invocations := Preload.invocations i ++ [(channel, data)];
              Preload.main := Preload.main i;
              Preload.listeners := Preload.listeners i;
              Preload.created := Preload.created i |})
     else (Ret None, i)).
Proof.
  unfold Preload.sendCommand, Preload.sendQuery, Preload.Array_includes. cbn [existsb].
  rewrite !orb_false_r. split.
  - destruct (String.eqb channel "execute-command"); reflexivity.
  - destruct (String.eqb channel "execute-query"); reflexivity.
Qed.

(** X26. The three functions of the bridge share no channel: whatever the
    channel, at most one of [sendCommand], [sendQuery] and [on] acts on it;
    the other two return [undefined] and leave everything as it was. *)
Theorem bridge_channels_are_disjoint channel data func i :
  (Preload.sendCommand channel data i = (Ret None, i) /\
   Preload.sendQuery channel data i = (Ret None, i)) \/
  (Preload.sendCommand channel data i = (Ret None, i) /\
   Preload.on channel func i = (Ret None, i)) \/
  (Preload.sendQuery channel data i = (Ret None, i) /\
   Preload.on channel func i = (Ret None, i)).
Proof.
  unfold Preload.sendCommand, Preload.sendQuery, Preload.on.
  destruct (Preload.Array_includes ["execute-command"] channel) eqn:Hc.
  - apply Array_includes_one in Hc. subst channel. right. right. split; reflexivity.
  - destruct (Preload.Array_includes ["execute-query"] channel) eqn:Hq.
    + apply Array_includes_one in Hq. subst channel. right. left. split; reflexivity.
    + left. split; reflexivity.
Qed.

Lemma remove_last_added channel n func (l : list (string * nat * F)) :
  Preload.remove_last channel n (l ++ [(channel, n, func)]) = (l, true).
Proof.
  induction l as [|[[c k] f] l IH]; cbn [app Preload.remove_last].
  - now rewrite String.eqb_refl, Nat.eqb_refl.
  - now rewrite IH.
Qed.

Lemma remove_last_before channel n f1 f2 (l : list (string * nat * F)) :
  Preload.remove_last channel n (l ++ [(channel, n, f1); (channel, S n, f2)])
  = ((l ++ [(channel, S n, f2)])%list, true).
Proof.
  induction l as [|[[c k] f] l IH]; cbn [app Preload.remove_last].
  - rewrite String.eqb_refl, Nat.eqb_refl.
    replace (Nat.eqb (S n) n) with false by (symmetry; apply Nat.eqb_neq; lia).
    now rewrite andb_false_r.
  - now rewrite IH.
Qed.

(** X27. [on] listens on the channel 'event-update' only; there it adds one
    listener and returns a function that takes this listener away again:
    calling it right after leaves the listeners exactly as they were
    before [on].  On every other channel [on] returns [undefined] and adds
    nothing. *)
Theorem on_then_unsubscribe channel func i :
  (channel = "event-update" ->
   exists unsubscribe i1,
     Preload.on channel func i = (Ret (Some unsubscribe), i1) /\
     Preload.listeners i1
     = (Preload.listeners i ++ [(channel, Preload.created i, func)])%list /\
     Preload.listeners (snd (unsubscribe i1)) = Preload.listeners i) /\
  (channel <> "event-update" -> Preload.on channel func i = (Ret None, i)).
Proof.
  split.
  - intros ->. eexists _, _. split; [reflexivity |]. split; [reflexivity |].
    cbn. now rewrite remove_last_added.
  - intros Hne. unfold Preload.on.
    destruct (Preload.Array_includes ["event-update"] channel) eqn:Hc; [| reflexivity].
    apply Array_includes_one in Hc. contradiction.
Qed.

(** X28. Each call of [on] makes a listener of its own: when the same page
    function is subscribed twice, the function returned by the first call
    takes away the first listener only, and the second one stays. *)
Theorem unsubscribe_takes_its_own func i :
  exists u1 u2 i1 i2,
    Preload.on "event-update" func i = (Ret (Some u1), i1) /\
    Preload.on "event-update" func i1 = (Ret (Some u2), i2) /\
    Preload.listeners (snd (u1 i2))
    = (Preload.listeners i ++ [("event-update", S (Preload.created i), func)])%list /\
    Preload.listeners (snd (u2 (snd (u1 i2)))) = Preload.listeners i.
Proof.
  eexists _, _, _, _. split; [reflexivity |]. split; [reflexivity |].
  cbn. rewrite <- app_assoc. cbn [app].
  rewrite remove_last_before. cbn. split; [reflexivity |].
  now rewrite remove_last_added.
Qed.
End PreloadTheory.

(** ** These theorems at concrete inputs *)

(** An empty entry in [import.meta.env] hides the key of [process.env]. *)
Lemma getApiKey_import_meta_decides_witness :
  import_meta_env (config Cases.shadowed) = Some {[ "VITE_EXA_API_KEY" := EmptyString ]} /\
  ({[ "VITE_EXA_API_KEY" := EmptyString ]} : Env) !! "VITE_EXA_API_KEY" = Some EmptyString /\
  process_env (config Cases.shadowed) = Some {[ "VITE_EXA_API_KEY" := "pk-1" ]} /\
  getApiKey Cases.shadowed
  = (Throw (ErrorInstance
       "Exa API key not configured. Set VITE_EXA_API_KEY in your .env file."),
     Cases.shadowed).
Proof.
  split; [reflexivity |]. split; [reflexivity |]. split; [reflexivity |].
  exact (getApiKey_import_meta_decides Cases.shadowed _ EmptyString eq_refl eq_refl).
Defined.

(** Without [import.meta.env] the key of [process.env] is used. *)
Lemma getApiKey_falls_back_witness :
  import_meta_env (config (Cases.world Pending)) = None /\
  process_env (config (Cases.world Pending)) = Some {[ "VITE_EXA_API_KEY" := "pk-1" ]} /\
  "pk-1" <> EmptyString /\
  getApiKey (Cases.world Pending) = (Ret "pk-1", Cases.world Pending).
Proof.
  split; [reflexivity |]. split; [reflexivity |]. split; [discriminate |].
  apply (getApiKey_falls_back (Cases.world Pending) {[ "VITE_EXA_API_KEY" := "pk-1" ]}
           "pk-1" (or_introl eq_refl) eq_refl eq_refl).
  discriminate.
Defined.

Lemma exaSearch_request_envelope_witness :
  read_key (config (Cases.world Pending)) = Some "pk-1" /\
  "pk-1" <> EmptyString /\
  map req_headers (sent (snd (exaSearch "rust vs go" research (Cases.world Pending))))
  = [[("Content-Type", "application/json"); ("x-api-key", "pk-1")]].
Proof.
  split; [reflexivity |]. split; [discriminate |].
  destruct (exaSearch_request_envelope "rust vs go" research (Cases.world Pending) "pk-1"
              eq_refl) as (request & Hsent & _ & _ & Hheaders); [discriminate |].
  rewrite Hsent. cbn [map sent Cases.world app]. now rewrite Hheaders.
Defined.

Lemma search_handler_success_witness :
  read_key (config (Cases.world (Fulfilled Cases.good))) = Some "pk-1" /\
  "pk-1" <> EmptyString /\
  200 <= res_status Cases.good <= 299 /\
  res_json Cases.good = Fulfilled Cases.one_response /\
  exists r,
    fst (SearchCommandHandler_handle Cases.command (Cases.world (Fulfilled Cases.good)))
    = Ret (Fulfilled r) /\
    Result.value r = inr (Some Cases.one_response).
Proof.
  assert (200 <= 200 <= 299) as Hstatus by lia.
  split; [reflexivity |]. split; [discriminate |]. split; [exact Hstatus |].
  split; [reflexivity |].
  destruct (search_handler_success Cases.command (Cases.world (Fulfilled Cases.good))
              "pk-1" Cases.good Cases.one_response eq_refl ltac:(discriminate)
              eq_refl Hstatus eq_refl) as (r & Hh & _ & Hv).
  exists r. split; assumption.
Defined.

Lemma search_handler_network_failure_witness :
  read_key (config (Cases.world (Rejected (ErrorInstance "Failed to fetch")))) = Some "pk-1" /\
  "pk-1" <> EmptyString /\
  fst (SearchCommandHandler_handle Cases.command
         (Cases.world (Rejected (ErrorInstance "Failed to fetch"))))
  = Ret (Fulfilled (Result.fail "Search failed: Failed to fetch")).
Proof.
  split; [reflexivity |]. split; [discriminate |].
  exact (proj2 (search_handler_network_failure Cases.command
                  (Cases.world (Rejected (ErrorInstance "Failed to fetch"))) "pk-1"
                  (ErrorInstance "Failed to fetch") eq_refl ltac:(discriminate) eq_refl)).
Defined.

Lemma search_handler_malformed_body_witness :
  read_key (config (Cases.world (Fulfilled Cases.garbled))) = Some "pk-1" /\
  "pk-1" <> EmptyString /\
  200 <= res_status Cases.garbled <= 299 /\
  fst (SearchCommandHandler_handle Cases.command (Cases.world (Fulfilled Cases.garbled)))
  = Ret (Fulfilled (Result.fail
           "Search failed: Unexpected token < in JSON at position 0")).
Proof.
  assert (200 <= 200 <= 299) as Hstatus by lia.
  split; [reflexivity |]. split; [discriminate |]. split; [exact Hstatus |].
  exact (search_handler_malformed_body Cases.command (Cases.world (Fulfilled Cases.garbled))
           "pk-1" Cases.garbled _ eq_refl ltac:(discriminate) eq_refl Hstatus eq_refl).
Defined.

Lemma search_handler_no_timeout_witness :
  read_key (config (Cases.world Pending)) = Some "pk-1" /\
  "pk-1" <> EmptyString /\
  fst (SearchCommandHandler_handle Cases.command (Cases.world Pending)) = Ret Pending.
Proof.
  split; [reflexivity |]. split; [discriminate |].
  exact (search_handler_no_timeout Cases.command (Cases.world Pending) "pk-1"
           eq_refl ltac:(discriminate) eq_refl).
Defined.

Lemma search_handler_footprint_witness :
  not_key (read_key (config Samples.without_key)) = true /\
  sent (snd (SearchCommandHandler_handle Cases.command Samples.without_key)) = [] /\
  not_key (read_key (config (Cases.world Pending))) = false /\
  length (sent (snd (SearchCommandHandler_handle Cases.command (Cases.world Pending)))) = 1.
Proof.
  split; [reflexivity |]. split.
  - exact (proj1 (proj2 (proj2 (search_handler_footprint Cases.command Samples.without_key)))
             eq_refl).
  - split; [reflexivity |].
    destruct (proj2 (proj2 (proj2 (search_handler_footprint Cases.command
                                     (Cases.world Pending)))) eq_refl) as (request & ->).
    reflexivity.
Defined.

Lemma execute_no_timeout_witness :
  Bus.handlers (Samples.bus "Wait" Cases.silent) !! "Wait" = Some Cases.silent /\
  Bus.handle Cases.silent 7 tt = (Ret Pending, tt) /\
  fst (Bus.execute CommandKind "Wait" 7 (Samples.bus "Wait" Cases.silent, tt)) = Ret Pending.
Proof.
  split; [reflexivity |]. split; [reflexivity |].
  now rewrite (execute_no_timeout CommandKind "Wait" 7 (Samples.bus "Wait" Cases.silent)
                 tt Cases.silent tt eq_refl eq_refl).
Defined.

Lemma register_commutes_witness :
  "Ask" <> "Wait" /\
  Bus.handlers
    (fst (snd ((let* _ := Bus.register "Ask" Samples.doubling in
                Bus.register "Wait" Cases.silent) (Bus.new, tt))))
  = Bus.handlers
      (fst (snd ((let* _ := Bus.register "Wait" Cases.silent in
                  Bus.register "Ask" Samples.doubling) (Bus.new, tt)))).
Proof.
  split; [discriminate |].
  now rewrite (register_commutes "Ask" "Wait" Samples.doubling Cases.silent Bus.new tt)
    by discriminate.
Defined.

Lemma container_buses_are_separate_witness :
  Container.instance (Cases.fresh Samples.without_key) = None /\
  fst (Container.on_instance
         (Container.on_queryBus (QueryBus.execute "SearchCommand" Cases.lookup))
         (Cases.fresh Samples.without_key))
  = Ret (Fulfilled (Result.fail "No handler registered for query: SearchCommand")).
Proof.
  split; [reflexivity |].
  exact (proj2 (proj2 (container_buses_are_separate (Cases.fresh Samples.without_key)
                         Cases.command Cases.lookup eq_refl))).
Defined.

Lemma query_needs_no_network_witness :
  Container.instance (Cases.fresh Samples.without_key) = None /\
  exists r,
    fst (Container.on_instance
           (Container.on_queryBus (QueryBus.execute "GetSearchResultsQuery" Cases.lookup))
           (Cases.fresh Samples.without_key))
    = Ret (Fulfilled r) /\
    Result.isSuccess r = true.
Proof.
  split; [reflexivity |].
  destruct (query_needs_no_network (Cases.fresh Samples.without_key) Cases.lookup eq_refl)
    as (p' & Hexec & _).
  rewrite Hexec. eexists. split; reflexivity.
Defined.

Lemma search_through_container_witness :
  wired (Cases.fresh (Cases.world (Fulfilled Cases.good))) /\
  exists pr,
    fst (executeSearch Cases.command (Cases.fresh (Cases.world (Fulfilled Cases.good))))
    = Ret pr /\
    pr <> Rejected (ErrorInstance "Error executing command: Unknown error").
Proof.
  split; [exact I |].
  destruct (search_through_container Cases.command
              (Cases.fresh (Cases.world (Fulfilled Cases.good))) I) as (pr & Hexec & Hpr).
  exists pr. split; [exact Hexec |]. intros ->. exact Hpr.
Defined.

(** A query of spaces, a tab and a no-break space is refused. *)
Lemma page_refuses_blank_query_witness :
  is_empty (trim Cases.blank) = true /\
  SearchPage.s_error
    (SearchPage.page
       (snd (SearchPage.executeSearch search
               (Cases.typed Cases.blank search (Cases.world (Fulfilled Cases.good))))))
  = Some "Please enter a search query" /\
  sent (Container.world
          (SearchPage.process
             (snd (SearchPage.executeSearch search
                     (Cases.typed Cases.blank search (Cases.world (Fulfilled Cases.good)))))))
  = [].
Proof.
  split; [reflexivity |].
  rewrite (page_refuses_blank_query search
             (Cases.typed Cases.blank search (Cases.world (Fulfilled Cases.good))) eq_refl).
  split; reflexivity.
Defined.

(** With an endpoint that never answers the spinner stays on. *)
Lemma page_spinner_witness :
  is_empty (trim "rust vs go") = false /\
  exists pr b',
    SearchPage.executeSearch search (Cases.typed "rust vs go" search (Cases.world Pending))
    = (Ret pr, b') /\
    (pr = Fulfilled tt /\ SearchPage.s_loading (SearchPage.page b') = false \/
     pr = Pending /\ SearchPage.s_loading (SearchPage.page b') = true).
Proof.
  split; [reflexivity |].
  exact (page_spinner search (Cases.typed "rust vs go" search (Cases.world Pending)) eq_refl).
Defined.

Lemma page_shows_missing_key_witness :
  wired (SearchPage.process (Cases.typed "rust vs go" search Samples.without_key)) /\
  not_key (read_key (config Samples.without_key)) = true /\
  is_empty (trim "rust vs go") = false /\
  SearchPage.s_error
    (SearchPage.page
       (snd (SearchPage.executeSearch search
               (Cases.typed "rust vs go" search Samples.without_key))))
  = Some "Search failed: Exa API key not configured. Set VITE_EXA_API_KEY in your .env file.".
Proof.
  split; [exact I |]. split; [reflexivity |]. split; [reflexivity |].
  now rewrite (proj1 (page_shows_missing_key search
                        (Cases.typed "rust vs go" search Samples.without_key)
                        I eq_refl eq_refl)).
Defined.

Lemma page_shows_results_witness :
  wired (SearchPage.process
           (Cases.typed "rust vs go" search (Cases.world (Fulfilled Cases.good)))) /\
  is_empty (trim "rust vs go") = false /\
  read_key (config (Cases.world (Fulfilled Cases.good))) = Some "pk-1" /\
  "pk-1" <> EmptyString /\
  200 <= res_status Cases.good <= 299 /\
  SearchPage.s_results
    (SearchPage.page
       (snd (SearchPage.executeSearch search
               (Cases.typed "rust vs go" search (Cases.world (Fulfilled Cases.good))))))
  = [Cases.one_result].
Proof.
  assert (200 <= 200 <= 299) as Hstatus by lia.
  split; [exact I |]. split; [reflexivity |]. split; [reflexivity |].
  split; [discriminate |]. split; [exact Hstatus |].
  now rewrite (page_shows_results search
                 (Cases.typed "rust vs go" search (Cases.world (Fulfilled Cases.good)))
                 "pk-1" Cases.good Cases.one_response
                 I eq_refl eq_refl ltac:(discriminate) eq_refl Hstatus eq_refl).
Defined.

Lemma page_research_asks_first_witness :
  SearchPage.s_mode
    (SearchPage.page (Cases.typed "rust vs go" research (Cases.world (Fulfilled Cases.good))))
  = research /\
  sent (Container.world
          (SearchPage.process
             (snd (SearchPage.handleSubmit
                     (Cases.typed "rust vs go" research (Cases.world (Fulfilled Cases.good)))))))
  = [].
Proof.
  split; [reflexivity |].
  now rewrite (page_research_asks_first
                 (Cases.typed "rust vs go" research (Cases.world (Fulfilled Cases.good)))
                 eq_refl).
Defined.

Lemma page_confirm_sends_research_witness :
  wired (SearchPage.process
           (Cases.typed "rust vs go" research (Cases.world (Fulfilled Cases.good)))) /\
  is_empty (trim "rust vs go") = false /\
  read_key (config (Cases.world (Fulfilled Cases.good))) = Some "pk-1" /\
  "pk-1" <> EmptyString /\
  length (sent (Container.world
                  (SearchPage.process
                     (snd (SearchPage.confirmResearch
                             (Cases.typed "rust vs go" research
                                (Cases.world (Fulfilled Cases.good)))))))) = 1.
Proof.
  split; [exact I |]. split; [reflexivity |]. split; [reflexivity |].
  split; [discriminate |].
  destruct (page_confirm_sends_research
              (Cases.typed "rust vs go" research (Cases.world (Fulfilled Cases.good)))
              "pk-1" I eq_refl eq_refl) as (_ & request & Hsent & _); [discriminate |].
  now rewrite Hsent.
Defined.

(** The spaces typed around the query are in the body that is sent. *)
Lemma page_submit_sends_search_witness :
  SearchPage.s_mode
    (SearchPage.page (Cases.typed "  rust vs go " search (Cases.world (Fulfilled Cases.good))))
  = search /\
  wired (SearchPage.process
           (Cases.typed "  rust vs go " search (Cases.world (Fulfilled Cases.good)))) /\
  is_empty (trim "  rust vs go ") = false /\
  read_key (config (Cases.world (Fulfilled Cases.good))) = Some "pk-1" /\
  "pk-1" <> EmptyString /\
  map req_body
    (sent (Container.world
             (SearchPage.process
                (snd (SearchPage.handleSubmit
                        (Cases.typed "  rust vs go " search
                           (Cases.world (Fulfilled Cases.good))))))))
  = [Some ("{" +:+ quoted "query" +:+ ":" +:+ quoted "  rust vs go " +:+ ","
               +:+ quoted "type" +:+ ":" +:+ quoted "auto" +:+ ","
               +:+ quoted "numResults" +:+ ":10,"
               +:+ quoted "contents" +:+ ":{" +:+ quoted "text" +:+ ":true}}")].
Proof.
  split; [reflexivity |]. split; [exact I |]. split; [reflexivity |].
  split; [reflexivity |]. split; [discriminate |].
  destruct (page_submit_sends_search
              (Cases.typed "  rust vs go " search (Cases.world (Fulfilled Cases.good)))
              "pk-1" eq_refl I eq_refl eq_refl) as (request & Hsent & Hbody);
    [discriminate |].
  rewrite Hsent. cbn [map app sent Cases.world Cases.typed Cases.fresh
                      SearchPage.process Container.world].
  now rewrite Hbody.
Defined.

(** On 'event-update' the listener is added and taken away again; on the
    channel of the commands [on] does nothing. *)
Lemma on_then_unsubscribe_witness :
  "execute-command" <> "event-update" /\
  Preload.on "execute-command" 7 Cases.bridge = (Ret None, Cases.bridge) /\
  exists unsubscribe i1,
    Preload.on "event-update" 7 Cases.bridge = (Ret (Some unsubscribe), i1) /\
    Preload.listeners i1 = [("event-update", 0, 7)] /\
    Preload.listeners (snd (unsubscribe i1)) = [].
Proof.
  split; [discriminate |]. split.
  - apply (proj2 (on_then_unsubscribe "execute-command" 7 Cases.bridge)). discriminate.
  - exact (proj1 (on_then_unsubscribe "event-update" 7 Cases.bridge) eq_refl).
Defined.

(** C10, as the claim states it, fails: the handler under 'Ask' registers
    another handler under 'Other' while it handles; [execute] resolves to
    the handler's success, and the registry after it has a name more than
    the registry before it. *)
Lemma execute_lets_handler_register :
  OpenBus.handlers Reentrant.bus !! "Other" = None /\
  fst (OpenBus.execute Reentrant.methods CommandKind "Ask" 7 (Reentrant.bus, tt))
  = Ret (Fulfilled (Result.ok (Some 7))) /\
  OpenBus.handlers
    (fst (snd (OpenBus.execute Reentrant.methods CommandKind "Ask" 7 (Reentrant.bus, tt))))
    !! "Other" = Some 2 /\
  OpenBus.handlers
    (fst (snd (OpenBus.execute Reentrant.methods CommandKind "Ask" 7 (Reentrant.bus, tt))))
  <> OpenBus.handlers Reentrant.bus.
Proof.
  split; [reflexivity |]. split; [reflexivity |]. split; [reflexivity |].
  intros Heq. apply (f_equal (fun m => m !! "Other")) in Heq.
  vm_compute in Heq. discriminate.
Qed.

(** Registering under 'Ask' leaves the handler under 'Other' in place; and
    a call of the handler 3, which leaves the bus alone, leaves the registry
    as it was. *)
Lemma registry_frame_reentrant_witness :
  let b : OpenBus.t nat := OpenBus.mk {[ "Other" := 3 ]} [] in
  "Other" <> "Ask" /\
  OpenBus.handlers (fst (snd (OpenBus.register "Ask" 1 (b, tt)))) !! "Other" = Some 3 /\
  OpenBus.handlers b !! "Missing" = None /\
  OpenBus.handlers
    (fst (snd (OpenBus.execute Reentrant.methods QueryKind "Missing" 7 (b, tt))))
  = OpenBus.handlers b /\
  OpenBus.handlers b !! "Other" = Some 3 /\
  OpenBus.handlers (fst (snd (Reentrant.methods 3 7 (OpenBus.logged b 3 7, tt))))
  = OpenBus.handlers b /\
  OpenBus.handlers
    (fst (snd (OpenBus.execute Reentrant.methods QueryKind "Other" 7 (b, tt))))
  = OpenBus.handlers b.
Proof.
  intros b.
  destruct (registry_frame_reentrant Reentrant.methods QueryKind "Ask" 1 b tt)
    as (Hregister & Hmissing & Hkeeps).
  split; [discriminate |]. split.
  - rewrite (Hregister "Other") by discriminate. reflexivity.
  - split; [reflexivity |]. split; [exact (Hmissing "Missing" 7 eq_refl) |].
    split; [reflexivity |]. split; [reflexivity |].
    exact (Hkeeps "Other" 7 3 eq_refl eq_refl).
Defined.

(** With the handler that registers while it handles, [execute] still
    returns a fulfilled promise, and the state after it is the state that
    handler left: the call logged, the new name registered. *)
Lemma execute_total_reentrant_witness :
  OpenBus.handlers Reentrant.bus !! "Ask" = Some 1 /\
  OpenBus.execute Reentrant.methods CommandKind "Ask" 7 (Reentrant.bus, tt)
  = (Ret (Fulfilled (Result.ok (Some 7))),
     (OpenBus.mk (<["Other" := 2]> {[ "Ask" := 1 ]}) [(1, 7)], tt)).
Proof.
  split; [reflexivity |].
  destruct (execute_total_reentrant Reentrant.methods CommandKind "Ask" 7 Reentrant.bus tt)
    as (p & s' & Hexec & _ & _ & Hstate).
  rewrite Hexec. rewrite (Hstate 1 eq_refl) in *. 
  assert (p = Fulfilled (Result.ok (Some 7))) as ->.
  { assert (Ret p = fst (OpenBus.execute Reentrant.methods CommandKind "Ask" 7
                           (Reentrant.bus, tt))) as Hp by now rewrite Hexec.
    now injection Hp. }
  reflexivity.
Defined.
